(** * citeformat: reference classification, resolution, formatting and
      author highlighting

    A shallow embedding of [citeformat.py] and of the processing loop of
    [citeformat_app.py].  Python [str] values are modelled as [string]:
    sequences of 8-bit characters read as the code points 0..255 (the
    Latin-1 block); the character classes below are Python's on that block.
    Functions that can raise return a [Result]; functions that talk to the
    network or read the terminal run in a small state-and-exception monad. *)

From Stdlib Require Import String Ascii List ZArith NArith Bool Lia DecimalString.
Import ListNotations.
Open Scope string_scope.

(* ===================================================================== *)
(** ** Python exceptions and results *)
(* ===================================================================== *)

(** The subclasses of [Exception] that the program can meet. *)
Inductive exn : Type :=
| IndexError
| ValueError
| AttributeError
| EOFError
| OverflowError
| HTTPError (code : Z)
| RuntimeError (msg : string).

Inductive Result (A : Type) : Type :=
| Ok (a : A)
| Raise (e : exn).
Arguments Ok {A} a.
Arguments Raise {A} e.

(* ===================================================================== *)
(** ** Python string primitives *)
(* ===================================================================== *)

Module PyStr.

Definition code (c : ascii) : N := N_of_ascii c.

Definition between (lo hi : N) (c : ascii) : bool :=
  ((lo <=? code c) && (code c <=? hi))%N.

(** [str.isspace] on one character, which is also the class [\s]. *)
Definition is_space (c : ascii) : bool :=
  between 9 13 c || between 28 32 c || (code c =? 133)%N || (code c =? 160)%N.

(** The class [\d]. *)
Definition is_digit (c : ascii) : bool := between 48 57 c.

(** [str.isdigit] on one character: the decimal digits and the superscripts
    one, two and three. *)
Definition is_py_digit (c : ascii) : bool :=
  is_digit c || (code c =? 178)%N || (code c =? 179)%N || (code c =? 185)%N.

(** The class [[A-Za-z]]. *)
Definition is_alpha (c : ascii) : bool := between 65 90 c || between 97 122 c.

(** The class [\w]: alphanumeric characters and the underscore. *)
Definition is_word (c : ascii) : bool :=
  is_digit c || is_alpha c || (code c =? 95)%N
  || (code c =? 170)%N || (code c =? 178)%N || (code c =? 179)%N
  || (code c =? 181)%N || (code c =? 185)%N || (code c =? 186)%N
  || between 188 190 c || between 192 214 c || between 216 246 c
  || between 248 255 c.

(** [str.lower] on one character. *)
Definition lower_char (c : ascii) : ascii :=
  if between 65 90 c || between 192 214 c || between 216 222 c
  then ascii_of_N (code c + 32) else c.

Fixpoint lower (s : string) : string :=
  match s with
  | EmptyString => EmptyString
  | String c r => String (lower_char c) (lower r)
  end.

Fixpoint mem_char (c : ascii) (chars : string) : bool :=
  match chars with
  | EmptyString => false
  | String d r => Ascii.eqb c d || mem_char c r
  end.

Fixpoint lstrip_by (p : ascii -> bool) (s : string) : string :=
  match s with
  | EmptyString => EmptyString
  | String c r => if p c then lstrip_by p r else s
  end.

Fixpoint rstrip_by (p : ascii -> bool) (s : string) : string :=
  match s with
  | EmptyString => EmptyString
  | String c r =>
      match rstrip_by p r with
      | EmptyString => if p c then EmptyString else String c EmptyString
      | r' => String c r'
      end
  end.

Definition strip_by (p : ascii -> bool) (s : string) : string :=
  rstrip_by p (lstrip_by p s).

(** [s.strip()] *)
Definition strip (s : string) : string := strip_by is_space s.

(** [s.strip(chars)] and [s.lstrip(chars)]: [chars] is a set of characters. *)
Definition strip_chars (chars s : string) : string :=
  strip_by (fun c => mem_char c chars) s.

Definition lstrip_chars (chars s : string) : string :=
  lstrip_by (fun c => mem_char c chars) s.

(** [s.split(sep)] for a one-character separator: always at least one part. *)
Fixpoint split_on (sep : ascii) (s : string) : list string :=
  match s with
  | EmptyString => [EmptyString]
  | String c r =>
      if Ascii.eqb c sep then EmptyString :: split_on sep r
      else match split_on sep r with
           | [] => [String c EmptyString]
           | p :: ps => String c p :: ps
           end
  end.

(** [s.split()]: the maximal runs of non-whitespace characters.  [cur] is
    the run being read, in reverse. *)
Fixpoint rev_string (acc s : string) : string :=
  match s with
  | EmptyString => acc
  | String c r => rev_string (String c acc) r
  end.

Fixpoint split_ws_from (cur : string) (s : string) : list string :=
  match s with
  | EmptyString =>
      match cur with
      | EmptyString => []
      | _ => [rev_string EmptyString cur]
      end
  | String c r =>
      if is_space c then
        match cur with
        | EmptyString => split_ws_from EmptyString r
        | _ => rev_string EmptyString cur :: split_ws_from EmptyString r
        end
      else split_ws_from (String c cur) r
  end.

Definition split_ws (s : string) : list string := split_ws_from EmptyString s.

(** [s.startswith(p)] *)
Definition startswith (p s : string) : bool := prefix p s.

(** [needle in s] *)
Fixpoint contains (needle s : string) : bool :=
  prefix needle s ||
  match s with
  | EmptyString => false
  | String _ r => contains needle r
  end.

(** [s[n:]] *)
Fixpoint drop (n : nat) (s : string) : string :=
  match n, s with
  | O, _ => s
  | S _, EmptyString => EmptyString
  | S k, String _ r => drop k r
  end.

(** [s[a:b]] for non-negative [a], [b]. *)
Definition slice (a b : nat) (s : string) : string := substring a (b - a) s.

(** [s.count(needle)]: occurrences that do not overlap, from the left.
    [skip] counts the characters of the occurrence just found that are
    still to be passed. *)
Fixpoint count_from (needle : string) (skip : nat) (s : string) : nat :=
  match s with
  | EmptyString => 0
  | String _ r =>
      match skip with
      | S k => count_from needle k r
      | O => if prefix needle s
             then S (count_from needle (String.length needle - 1) r)
             else count_from needle 0 r
      end
  end.

Definition count (needle s : string) : nat :=
  match needle with
  | EmptyString => S (String.length s)
  | _ => count_from needle 0 s
  end.

(** [sep.join(parts)] *)
Definition join (sep : string) (parts : list string) : string :=
  String.concat sep parts.

(** [str(n)] and [f"{n}"] for an [int]. *)
Definition str_int (n : Z) : string := NilZero.string_of_int (Z.to_int n).

(** Truth value of a [str]. *)
Definition truthy (s : string) : bool :=
  match s with EmptyString => false | _ => true end.

(** [s in l] for a list of strings. *)
Fixpoint mem (s : string) (l : list string) : bool :=
  match l with
  | [] => false
  | x :: r => String.eqb s x || mem s r
  end.

(** First character, if any. *)
Definition head (s : string) : option ascii :=
  match s with EmptyString => None | String c _ => Some c end.

(** Does [s] start with [p], letter case ignored ([re.IGNORECASE] on a
    literal)?  The rest of [s] when it does. *)
Fixpoint strip_prefix_ci (p s : string) : option string :=
  match p, s with
  | EmptyString, _ => Some s
  | String _ _, EmptyString => None
  | String a p', String b s' =>
      if Ascii.eqb (lower_char a) (lower_char b) then strip_prefix_ci p' s'
      else None
  end.

End PyStr.


(* ===================================================================== *)
(** ** Input auto-detection *)
(* ===================================================================== *)

Module Kind.
(** The values of the ['type'] key. *)
Inductive t : Type :=
| doi
| title_year
| author_journal_year
| title_journal_year
| author_title_journal_year
| title_only.
End Kind.

(** The dict returned by [detect_input_type].  A key holding Python's
    [None] is [None] here. *)
Record QueryDescriptor : Type := {
  type    : Kind.t;
  doi     : option string;
  title   : option string;
  author  : option string;
  journal : option string;
  year    : option string;
  raw     : string
}.

Module Classifier.
Import PyStr.

(** *** Regular expressions

    A pattern is run as a backtracking matcher: applied to the input that
    is left, it gives the inputs left after each way of matching, in the
    order in which Python's engine tries them. *)
Definition Matcher : Type := string -> list string.

Definition lit_ci (p : string) : Matcher :=
  fun s => match strip_prefix_ci p s with Some r => [r] | None => [] end.

Definition seq (m1 m2 : Matcher) : Matcher :=
  fun s => flat_map m2 (m1 s).

(** [m?], greedy *)
Definition opt (m : Matcher) : Matcher := fun s => (m s ++ [s])%list.

(** One character of the class [p]. *)
Definition cls (p : ascii -> bool) : Matcher :=
  fun s => match s with
           | String c r => if p c then [r] else []
           | EmptyString => []
           end.

(** [p{0,extra}] for a character class [p], greedy. *)
Fixpoint rep_upto (p : ascii -> bool) (extra : nat) : Matcher :=
  match extra with
  | S e => opt (seq (cls p) (rep_upto p e))
  | O => fun s => [s]
  end.

(** [p{lo,lo+extra}] for a character class [p], greedy. *)
Fixpoint rep (p : ascii -> bool) (lo extra : nat) : Matcher :=
  match lo with
  | S k => seq (cls p) (rep p k extra)
  | O => rep_upto p extra
  end.

(** [p+] for a character class [p], greedy: the longest run first. *)
Fixpoint plus_from (p : ascii -> bool) (s : string) : list string :=
  match s with
  | String c r => if p c then (plus_from p r ++ [r])%list else []
  | EmptyString => []
  end.

Definition plus (p : ascii -> bool) : Matcher := plus_from p.

(** [$] without [re.MULTILINE]: the end, or just before a final newline. *)
Definition eos : Matcher :=
  fun s => if String.eqb s "" || String.eqb s (String "010"%char "")
           then [s] else [].

Definition non_space (c : ascii) : bool := negb (is_space c).

(** Group 1 of [DOI_RE]: [(https?://(?:dx\.)?doi\.org/)?] *)
Definition DOI_RE_group1 : Matcher :=
  opt (seq (lit_ci "http") (seq (opt (lit_ci "s")) (seq (lit_ci "://")
      (seq (opt (lit_ci "dx.")) (lit_ci "doi.org/"))))).

(** Group 2 of [DOI_RE] and the final [$]: [(10\.\d{4,9}/\S+)$] *)
Definition DOI_RE_group2 : Matcher :=
  seq (lit_ci "10.") (seq (rep is_digit 4 5) (seq (lit_ci "/")
      (seq (plus non_space) eos))).

(** [DOI_RE.match(line)], giving [m.group(2)]: the first way of matching
    group 1 after which group 2 matches up to the end. *)
Fixpoint DOI_RE_first (starts : list string) : option string :=
  match starts with
  | [] => None
  | s :: more =>
      match DOI_RE_group2 s with
      | r :: _ => Some (substring 0 (String.length s - String.length r) s)
      | [] => DOI_RE_first more
      end
  end.

Definition DOI_RE_match (line : string) : option string :=
  DOI_RE_first (DOI_RE_group1 line).

(** [\b] between the character before ([None] at the start) and the
    character after ([None] at the end). *)
Definition word_boundary (before after : option ascii) : bool :=
  xorb (match before with Some c => is_word c | None => false end)
       (match after with Some c => is_word c | None => false end).

(** Does [YEAR_RE], [\b(19|20)\d{2}\b], match at the head of [s], the
    character before being [prev]? *)
Definition year_at (prev : option ascii) (s : string) : bool :=
  match s with
  | String c1 (String c2 (String c3 (String c4 r))) =>
      word_boundary prev (Some c1)
      && (String.eqb (String c1 (String c2 "")) "19"
          || String.eqb (String c1 (String c2 "")) "20")
      && is_digit c3 && is_digit c4
      && word_boundary (Some c4) (head r)
  | _ => false
  end.

(** [YEAR_RE.search(p)], giving [ym.group(0)]. *)
Fixpoint YEAR_RE_search_from (prev : option ascii) (s : string) : option string :=
  if year_at prev s then Some (substring 0 4 s)
  else match s with
       | EmptyString => None
       | String c r => YEAR_RE_search_from (Some c) r
       end.

Definition YEAR_RE_search (p : string) : option string :=
  YEAR_RE_search_from None p.

(** [YEAR_RE.sub('', p)] *)
Fixpoint YEAR_RE_sub_from (prev : option ascii) (s : string) : string :=
  match s with
  | EmptyString => EmptyString
  | String c1 s1 =>
      if year_at prev s then
        match s1 with
        | String _ (String _ (String c4 r)) => YEAR_RE_sub_from (Some c4) r
        | _ => EmptyString
        end
      else String c1 (YEAR_RE_sub_from (Some c1) s1)
  end.

Definition YEAR_RE_sub (p : string) : string := YEAR_RE_sub_from None p.

(** [re.search(r'\d', t)] as a truth value. *)
Fixpoint has_digit (t : string) : bool :=
  match t with
  | EmptyString => false
  | String c r => is_digit c || has_digit r
  end.

Definition JOURNAL_HINTS : list string :=
  [ "nature"; "science"; "cell"; "lancet"; "nejm"; "jama"; "pnas";
    "plos"; "ieee"; "acm"; "neurips"; "nips"; "icml"; "iclr"; "cvpr";
    "aaai"; "emnlp"; "acl"; "naacl"; "arxiv"; "biorxiv"; "medrxiv";
    "annals"; "journal"; "letters"; "review"; "proceedings"; "transactions";
    "frontiers"; "nature medicine"; "nature methods"; "nature communications" ].

Definition looks_like_journal (text : string) : bool :=
  let t := strip (lower text) in
  if existsb (fun hint => contains hint t) JOURNAL_HINTS then true
  else if (List.length (split_ws t) <=? 3)%nat && (String.length t <=? 40)%nat
       then true
  else false.

Definition looks_like_author (text : string) : bool :=
  let t := strip text in
  if has_digit t then false
  else
    let words := split_ws t in
    if (List.length words <=? 3)%nat
       && forallb (fun w => (2 <=? String.length w)%nat) words
    then true
    else false.

(** One turn of the loop over [parts]; the state is [(year, clean_parts)]. *)
Definition year_step (st : option string * list string) (p : string)
  : option string * list string :=
  let '(year, clean_parts) := st in
  match YEAR_RE_search p with
  | Some y =>
      if (String.length (strip p) <=? 6)%nat then (Some y, clean_parts)
      else
        let p' := strip_chars " ," (YEAR_RE_sub p) in
        (Some y, if truthy p' then (clean_parts ++ [p'])%list else clean_parts)
  | None =>
      (year, if truthy p then (clean_parts ++ [p])%list else clean_parts)
  end.

(** [clean_parts[1:-1]] *)
Definition middle (l : list string) : list string := removelast (tl l).

Definition detect_input_type (line0 : string) : Result QueryDescriptor :=
  let line := strip line0 in
  let result k d t a j y :=
    {| type := k; doi := d; title := t; author := a; journal := j;
       year := y; raw := line0 |} in
  match DOI_RE_match line with
  | Some g2 => Ok (result Kind.doi (Some g2) None None None None)
  | None =>
      let parts := map strip (split_on "|" line) in
      let '(year, clean_parts) := fold_left year_step parts (None, []) in
      match clean_parts with
      | [a] => Ok (result Kind.title_only None (Some a) None None year)
      | [a; b] =>
          if looks_like_author a && looks_like_journal b then
            Ok (result Kind.author_journal_year None None (Some a) (Some b) year)
          else if looks_like_journal b then
            Ok (result Kind.title_journal_year None (Some a) None (Some b) year)
          else
            Ok (result Kind.title_year None (Some a) None
                  (match year with None => Some b | Some _ => None end) year)
      | [a; b; c] =>
          if looks_like_author a && looks_like_journal c then
            Ok (result Kind.author_title_journal_year None
                  (Some b) (Some a) (Some c) year)
          else if looks_like_author a && looks_like_journal b then
            Ok (result Kind.author_journal_year None None (Some a) (Some b) year)
          else
            Ok (result Kind.title_journal_year None (Some a) None (Some b) year)
      | [] => Raise IndexError
      | a :: _ =>
          Ok (result Kind.author_title_journal_year None
                (Some (join " " (middle clean_parts))) (Some a)
                (Some (last clean_parts "")) year)
      end
  end.

End Classifier.


(* ===================================================================== *)
(** ** Metadata records *)
(* ===================================================================== *)

(** One entry of a record's ["author"] list.  [None] is an absent key. *)
Record Author : Type := {
  family : option string;
  given  : option string;
  name   : option string
}.

(** A date field: its ["date-parts"] key, a list of lists of numbers in
    which a JSON [null] is [None]. *)
Record DateField : Type := {
  date_parts : option (list (list (option Z)))
}.

(** A CrossRef work as the program reads it: the keys it looks up, each
    [None] when absent, and whether the dict has any other key (which
    decides its truth value). *)
Record Msg : Type := {
  m_author           : option (list Author);
  m_title            : option (list string);
  m_container_title  : option (list string);
  m_publisher        : option string;
  m_volume           : option string;
  m_issue            : option string;
  m_page             : option string;
  m_published        : option DateField;
  m_published_print  : option DateField;
  m_published_online : option DateField;
  m_issued           : option DateField;
  m_DOI              : option string;
  m_other_keys       : bool
}.

(** The empty dict [{}]. *)
Definition empty_msg : Msg :=
  {| m_author := None; m_title := None; m_container_title := None;
     m_publisher := None; m_volume := None; m_issue := None; m_page := None;
     m_published := None; m_published_print := None;
     m_published_online := None; m_issued := None; m_DOI := None;
     m_other_keys := false |}.

Definition is_some {A : Type} (o : option A) : bool :=
  match o with Some _ => true | None => false end.

(** Truth value of a record: a dict is true when it has a key. *)
Definition msg_truthy (m : Msg) : bool :=
  is_some (m_author m) || is_some (m_title m) || is_some (m_container_title m)
  || is_some (m_publisher m) || is_some (m_volume m) || is_some (m_issue m)
  || is_some (m_page m) || is_some (m_published m)
  || is_some (m_published_print m) || is_some (m_published_online m)
  || is_some (m_issued m) || is_some (m_DOI m) || m_other_keys m.

(** [d.get(key, default)] *)
Definition get {A : Type} (o : option A) (default : A) : A :=
  match o with Some v => v | None => default end.

(* ===================================================================== *)
(** ** Field helpers and citation formatters *)
(* ===================================================================== *)

Module Formatters.
Import PyStr.

Definition get_authors (msg : Msg) : list Author := get (m_author msg) [].
Definition get_volume (msg : Msg) : string := get (m_volume msg) "".
Definition get_issue (msg : Msg) : string := get (m_issue msg) "".
Definition get_pages (msg : Msg) : string := get (m_page msg) "".
Definition get_publisher (msg : Msg) : string := get (m_publisher msg) "".

(** [a.get("family", a.get("name", "?"))] *)
Definition family_or_name (a : Author) : string :=
  get (family a) (get (name a) "?").

Definition get_last_names (authors : list Author) : list string :=
  map family_or_name authors.

(** [f"{p[0]}."] for a token of [given.split()], which is never empty. *)
Definition initial_dot (p : string) : string :=
  match p with
  | String c _ => String c "."
  | EmptyString => "."
  end.

(** ["".join(f"{p[0]}." for p in given.split()) if given else ""] *)
Definition initials_of (given : string) : string :=
  if truthy given then join "" (map initial_dot (split_ws given)) else "".

Definition get_full_names_last_first (authors : list Author) : list string :=
  map (fun a =>
         let family := family_or_name a in
         let given := get (given a) "" in
         let initials := initials_of given in
         strip_chars ", " (family ++ ", " ++ initials))
      authors.

Definition get_full_names_first_last (authors : list Author) : list string :=
  map (fun a =>
         let family := family_or_name a in
         let given := get (given a) "" in
         let initials := initials_of given in
         strip (initials ++ " " ++ family))
      authors.

(** The year of one date field, when [date and date[0] and date[0][0]]. *)
Definition field_year (f : option DateField) : option string :=
  match f with
  | None => None
  | Some d =>
      match date_parts d with
      | Some ((Some y :: _) :: _) =>
          if (y =? 0)%Z then None else Some (str_int y)
      | _ => None
      end
  end.

Fixpoint first_year (fields : list (option DateField)) : string :=
  match fields with
  | [] => "n.d."
  | f :: more =>
      match field_year f with
      | Some y => y
      | None => first_year more
      end
  end.

Definition get_year (msg : Msg) : string :=
  first_year [m_published msg; m_published_print msg;
              m_published_online msg; m_issued msg].

Definition get_journal (msg : Msg) : string :=
  match m_container_title msg with
  | Some (c :: _) => c
  | _ => get (m_publisher msg) ""
  end.

Definition get_title (msg : Msg) : string :=
  match get (m_title msg) [] with
  | t :: _ => t
  | [] => "Untitled"
  end.

(** [source += extra] when [cond] is a non-empty string. *)
Definition add_if (cond : string) (extra : string) (source : string) : string :=
  if truthy cond then source ++ extra else source.

Definition fmt_plain (msg : Msg) (raw_doi : string) (idx : Z) : string :=
  let last_names := get_last_names (get_authors msg) in
  let authors :=
    match last_names with
    | [] => "Unknown"
    | [a] => a
    | [a; b] => a ++ " and " ++ b
    | a :: _ => a ++ " et al."
    end in
  str_int idx ++ ". " ++ authors ++ ". " ++ get_journal msg ++ ". "
  ++ get_year msg ++ ". https://doi.org/" ++ raw_doi ++ ".".

Definition fmt_apa (msg : Msg) (raw_doi : string) (idx : Z) : string :=
  let names := get_full_names_last_first (get_authors msg) in
  let authors :=
    if (List.length names =? 0)%nat then "Unknown"
    else if (List.length names =? 1)%nat then nth 0 names ""
    else if (List.length names <=? 20)%nat then
      join ", " (removelast names) ++ ", & " ++ last names ""
    else join ", " (firstn 19 names) ++ ", ... " ++ last names "" in
  let vol := get_volume msg in
  let issue := get_issue msg in
  let pages := get_pages msg in
  let source := get_journal msg in
  let source := add_if vol (", " ++ vol) source in
  let source := add_if issue ("(" ++ issue ++ ")") source in
  let source := add_if pages (", " ++ pages) source in
  str_int idx ++ ". " ++ authors ++ " (" ++ get_year msg ++ "). "
  ++ get_title msg ++ ". " ++ source ++ ". https://doi.org/" ++ raw_doi.

(** The [source] string of [fmt_vancouver]. *)
Definition vancouver_source (msg : Msg) : string :=
  let vol := get_volume msg in
  let issue := get_issue msg in
  let pages := get_pages msg in
  let source := get_journal msg ++ "." in
  if truthy vol || truthy issue || truthy pages then
    let source := source ++ " " ++ get_year msg in
    let source := add_if vol (";" ++ vol) source in
    let source := add_if issue ("(" ++ issue ++ ")") source in
    add_if pages (":" ++ pages) source
  else source ++ " " ++ get_year msg.

Definition fmt_vancouver (msg : Msg) (raw_doi : string) (idx : Z) : string :=
  let names := get_full_names_last_first (get_authors msg) in
  let authors :=
    if (List.length names =? 0)%nat then "Unknown"
    else if (List.length names <=? 6)%nat then join ", " names
    else join ", " (firstn 6 names) ++ ", et al." in
  str_int idx ++ ". " ++ authors ++ ". " ++ get_title msg ++ ". "
  ++ vancouver_source msg ++ ". https://doi.org/" ++ raw_doi ++ ".".

(** The [source] string of [fmt_ieee]. *)
Definition ieee_source (msg : Msg) : string :=
  let vol := get_volume msg in
  let issue := get_issue msg in
  let pages := get_pages msg in
  let source := "*" ++ get_journal msg ++ "*" in
  let source := add_if vol (", vol. " ++ vol) source in
  let source := add_if issue (", no. " ++ issue) source in
  add_if pages (", pp. " ++ pages) source.

(** The double-quote character. *)
Definition quote_char : string := String "034"%char "".

Definition fmt_ieee (msg : Msg) (raw_doi : string) (idx : Z) : string :=
  let names := get_full_names_first_last (get_authors msg) in
  let authors :=
    if (List.length names =? 0)%nat then "Unknown"
    else if (List.length names <=? 6)%nat then join ", " names
    else join ", " (firstn 6 names) ++ " et al." in
  "[" ++ str_int idx ++ "] " ++ authors ++ ", " ++ quote_char
  ++ get_title msg ++ "," ++ quote_char ++ " " ++ ieee_source msg ++ ", "
  ++ get_year msg ++ ", doi: https://doi.org/" ++ raw_doi ++ ".".

(** The [source] string of [fmt_ama]. *)
Definition ama_source (msg : Msg) : string :=
  let vol := get_volume msg in
  let issue := get_issue msg in
  let pages := get_pages msg in
  let source := get_journal msg ++ "." in
  if truthy vol then
    let source := source ++ " " ++ get_year msg ++ ";" ++ vol in
    let source := add_if issue ("(" ++ issue ++ ")") source in
    add_if pages (":" ++ pages) source
  else source ++ " " ++ get_year msg.

Definition fmt_ama (msg : Msg) (raw_doi : string) (idx : Z) : string :=
  let names := get_full_names_last_first (get_authors msg) in
  let authors :=
    if (List.length names =? 0)%nat then "Unknown"
    else if (List.length names <=? 6)%nat then join ", " names
    else join ", " (firstn 6 names) ++ ", et al." in
  str_int idx ++ ". " ++ authors ++ ". " ++ get_title msg ++ ". "
  ++ ama_source msg ++ ". doi:https://doi.org/" ++ raw_doi.

End Formatters.


(* ===================================================================== *)
(** ** Smart author highlight *)
(* ===================================================================== *)

Module Highlight.
Import PyStr.

(** [p[0]] for a token of [given.split()]. *)
Definition first_char (p : string) : string :=
  match p with
  | String c _ => String c ""
  | EmptyString => ""
  end.

Definition _author_matches_query (author_dict : Author) (query : string) : bool :=
  let family := strip (lower (get (family author_dict) "")) in
  let given := strip (lower (get (given author_dict) "")) in
  let full := strip (given ++ " " ++ family) in
  let initials :=
    if truthy given then join "" (map first_char (split_ws given)) else "" in
  let q := lower (strip query) in
  let name_parts := split_ws given in
  let first_given := match name_parts with p :: _ => p | [] => "" end in
  String.eqb q family
  || String.eqb q given
  || String.eqb q full
  || String.eqb q (family ++ ", " ++ given)
  || String.eqb q (strip (given ++ " " ++ family))
  || String.eqb q (strip (first_given ++ " " ++ family))
  || String.eqb q (strip (family ++ ", " ++ first_given))
  || String.eqb q (family ++ " " ++ initials)
  || String.eqb q (initials ++ " " ++ family)
  || String.eqb q (family ++ ", " ++ initials)
  || startswith q family
  || ((3 <=? String.length q)%nat && contains q family)
  || ((3 <=? String.length q)%nat && String.eqb q first_given).

(** The class [[A-Za-z.']] of the look-behind. *)
Definition is_name_char (c : ascii) : bool :=
  is_alpha c || Ascii.eqb c "."%char || Ascii.eqb c "'"%char.

Definition class_holds (p : ascii -> bool) (c : option ascii) : bool :=
  match c with Some x => p x | None => false end.

(** Does the pattern [(?<![A-Za-z.'])(target)(?![A-Za-z])], letter case
    ignored, match at the head of [s], the character before being [prev]? *)
Definition target_at (target : string) (prev : option ascii) (s : string) : bool :=
  negb (class_holds is_name_char prev)
  && match strip_prefix_ci target s with
     | Some rest => negb (class_holds is_alpha (head rest))
     | None => false
     end.

(** [pattern.finditer(text)] as the list of [(m.start(), m.end())]: the
    matches that do not overlap, from the left.  [i] is the position of
    the head of [s] in the text, [skip] the number of characters of the
    match just found that are still to be passed. *)
Fixpoint finditer_from (target : string) (prev : option ascii) (i skip : nat)
  (s : string) : list (nat * nat) :=
  match s with
  | EmptyString =>
      match skip with
      | O => if target_at target prev s then [(i, i)] else []
      | S _ => []
      end
  | String c r =>
      match skip with
      | S k => finditer_from target (Some c) (S i) k r
      | O =>
          if target_at target prev s then
            (i, i + String.length target)
              :: finditer_from target (Some c) (S i)
                   (String.length target - 1) r
          else finditer_from target (Some c) (S i) 0 r
      end
  end.

Definition finditer (target text : string) : list (nat * nat) :=
  finditer_from target None 0 0 text.

(** The inner loop of [_apply_highlight] over the matches of one target;
    the state is [(pos, result)], [result] being the joined pieces. *)
Definition wrap_step (text open_tag close_tag : string)
  (st : nat * string) (m : nat * nat) : nat * string :=
  let '(pos, result) := st in
  let '(m_start, m_end) := m in
  let before := slice pos m_start text in
  if (count close_tag before <? count open_tag before)%nat then
    (m_end, result ++ slice pos m_end text)
  else
    (m_end, result ++ before ++ open_tag ++ slice m_start m_end text ++ close_tag).

(** One turn of the outer loop: all occurrences of one target. *)
Definition highlight_target (open_tag close_tag : string)
  (text target : string) : string :=
  let '(pos, result) :=
    fold_left (wrap_step text open_tag close_tag) (finditer target text) (0, "") in
  result ++ drop pos text.

Definition _apply_highlight (text : string) (targets : list string)
  (open_tag close_tag : string) : string :=
  fold_left (highlight_target open_tag close_tag) targets text.

Definition _apply_author_highlight_md (text : string) (targets : list string) :=
  _apply_highlight text targets "**" "**".

Definition _apply_author_highlight_html (text : string) (targets : list string) :=
  _apply_highlight text targets "<strong>" "</strong>".

Definition _apply_author_highlight_pdf (text : string) (targets : list string) :=
  _apply_highlight text targets "<b>" "</b>".

End Highlight.


(* ===================================================================== *)
(** ** API calls *)
(* ===================================================================== *)

(** The ["message"] object of a response, read as a work (exact lookup)
    and through its ["items"] key (search). *)
Record Message : Type := {
  work  : Msg;
  items : option (list Msg)
}.

(** What [json.loads] returned: a dict, of which the ["message"] key is
    read, or a value that is not a dict. *)
Inductive Data : Type :=
| Data_dict (message : option Message)
| Data_not_dict.

(** The [Retry-After] header of an HTTP error as [int] reads it. *)
Inductive RetryAfter : Type :=
| RA_absent
| RA_int (n : Z)
| RA_invalid.

(** What one [urlopen] and the reading of its body do. *)
Inductive Response : Type :=
| Resp_ok (data : Data)
| Resp_HTTPError (code : Z) (retry_after : RetryAfter)
| Resp_network_error
| Resp_decode_error.

(** The dict built by [build_query]. *)
Record Params : Type := {
  query_title           : option string;
  query_author          : option string;
  query_container_title : option string;
  filter                : option string;
  query_bibliographic   : option string
}.

(** The dict that [search_crossref] encodes into the URL. *)
Record SearchParams : Type := {
  query_params : Params;
  rows         : nat;
  select       : string
}.

(** The program's view of the world: the number of requests sent so far,
    the lengths of the sleeps so far (latest first), and the lines still
    to be read from the terminal. *)
Record State : Type := {
  requests : nat;
  slept    : list Z;
  stdin    : list string
}.

Module Client.
Import PyStr.

Definition M (A : Type) : Type := State -> Result A * State.

Definition ret {A : Type} (a : A) : M A := fun st => (Ok a, st).

Definition raise {A : Type} (e : exn) : M A := fun st => (Raise e, st).

Definition bind {A B : Type} (m : M A) (k : A -> M B) : M B :=
  fun st =>
    match m st with
    | (Ok a, st') => k a st'
    | (Raise e, st') => (Raise e, st')
    end.

(** [try: m  except Exception as e: handler e] *)
Definition try_except {A : Type} (m : M A) (handler : exn -> M A) : M A :=
  fun st =>
    match m st with
    | (Ok a, st') => (Ok a, st')
    | (Raise e, st') => handler e st'
    end.

Notation "x <- m ;; k" := (bind m (fun x => k))
  (at level 61, m at next level, right associativity).
Notation "m ;;; k" := (bind m (fun _ => k))
  (at level 61, right associativity).

Definition MAX_RETRIES : nat := 3.
Definition BACKOFF_BASE : Z := 2.

(** [time.sleep(seconds)]: refuses a negative length and one that does
    not fit the clock's 64-bit nanosecond count. *)
Definition sleep (seconds : Z) : M unit :=
  fun st =>
    if (seconds <? 0)%Z then (Raise ValueError, st)
    else if (9223372036 <? seconds)%Z then (Raise OverflowError, st)
    else (Ok tt, {| requests := requests st;
                    slept := seconds :: slept st;
                    stdin := stdin st |}).

Section Network.

(** The service: the answer to the [n]-th request of the run, sent to
    [url]. *)
Variable urlopen : nat -> string -> Response.

(** [urllib.parse.quote(raw, safe='/')] and [urllib.parse.urlencode]. *)
Variable quote : string -> string.
Variable urlencode : SearchParams -> string.

(** One request: [urlopen], [r.read().decode()] and [json.loads]. *)
Definition request (url : string) : M Response :=
  fun st =>
    (Ok (urlopen (requests st) url),
     {| requests := S (requests st); slept := slept st; stdin := stdin st |}).

(** The body of [_get]'s loop from [attempt] on, with [left] attempts left.
    [_polite_wait], which touches only the clock, is left out. *)
Fixpoint _get_from (url : string) (attempt : Z) (left : nat) : M Data :=
  match left with
  | O =>
      raise (RuntimeError ("Failed after " ++ str_int (Z.of_nat MAX_RETRIES)
                           ++ " attempts: " ++ url))
  | S left' =>
      r <- request url ;;
      match r with
      | Resp_ok data => ret data
      | Resp_HTTPError code ra =>
          if (code =? 429)%Z then
            match ra with
            | RA_invalid => raise ValueError
            | RA_int n => sleep n ;;; _get_from url (attempt + 1) left'
            | RA_absent => sleep 60 ;;; _get_from url (attempt + 1) left'
            end
          else if (500 <=? code)%Z then
            sleep (BACKOFF_BASE ^ attempt) ;;; _get_from url (attempt + 1) left'
          else raise (HTTPError code)
      | Resp_network_error =>
          sleep (BACKOFF_BASE ^ attempt) ;;; _get_from url (attempt + 1) left'
      | Resp_decode_error => raise ValueError
      end
  end.

Definition _get (url : string) : M Data := _get_from url 1 MAX_RETRIES.

(** [data.get("message", {})] *)
Definition data_message (data : Data) : M Message :=
  match data with
  | Data_dict message => ret (get message {| work := empty_msg; items := None |})
  | Data_not_dict => raise AttributeError
  end.

Definition fetch_by_doi (doi : string) : M (option Msg * string) :=
  let raw := lstrip_chars "http://dx.doi.org/"
               (lstrip_chars "https://doi.org/" (strip doi)) in
  try_except
    (data <- _get ("https://api.crossref.org/works/" ++ quote raw) ;;
     message <- data_message data ;;
     ret (Some (work message), raw))
    (fun _ => ret (None, raw)).

Definition select_fields : string :=
  join "," ["DOI"; "title"; "author"; "container-title"; "published";
            "volume"; "issue"; "page"; "score"].

(** The [url] of [search_crossref]. *)
Definition search_url (query_params : Params) (rows : nat) : string :=
  let params := {| query_params := query_params; rows := rows;
                   select := select_fields |} in
  "https://api.crossref.org/works?" ++ urlencode params.

Definition search_crossref (query_params : Params) (rows : nat) : M (list Msg) :=
  let url := search_url query_params rows in
  try_except
    (data <- _get url ;;
     message <- data_message data ;;
     ret (get (items message) []))
    (fun _ => ret []).

(** [info.get(key)] as a truth value, and the key's string. *)
Definition nonempty (o : option string) : option string :=
  match o with
  | Some s => if truthy s then Some s else None
  | None => None
  end.

Definition build_query (info : QueryDescriptor) : Params :=
  let params :=
    {| query_title := nonempty (title info);
       query_author := nonempty (author info);
       query_container_title := nonempty (journal info);
       filter := match nonempty (year info) with
                 | Some y => Some ("from-pub-date:" ++ y ++ ",until-pub-date:" ++ y)
                 | None => None
                 end;
       query_bibliographic := None |} in
  if is_some (query_title params) || is_some (query_author params)
     || is_some (query_container_title params) || is_some (filter params)
  then params
  else {| query_title := None; query_author := None;
          query_container_title := None; filter := None;
          query_bibliographic := Some (raw info) |}.

(** [choice.isdigit()] *)
Definition isdigit (s : string) : bool :=
  truthy s && forallb is_py_digit (list_ascii_of_string s).

(** [int(choice)] for a [choice] that passed [isdigit]: its decimal value,
    or [ValueError] when it holds a superscript digit. *)
Fixpoint int_from (acc : Z) (s : string) : option Z :=
  match s with
  | EmptyString => Some acc
  | String c r =>
      if is_digit c
      then int_from (10 * acc + Z.of_N (code c - 48)) r
      else None
  end.

Definition int_of_digits (s : string) : option Z := int_from 0 s.

(** What the prompt loop of [resolve_input] ends with. *)
Inductive Choice : Type :=
| Skip
| Pick (chosen : Msg).

(** The [while True] loop of [resolve_input] on the lines of the terminal:
    the result and the lines left. *)
Fixpoint choose (candidates : list Msg) (lines : list string)
  : Result Choice * list string :=
  match lines with
  | [] => (Raise EOFError, [])
  | l :: more =>
      let choice := lower (strip l) in
      if String.eqb choice "s" then (Ok Skip, more)
      else if isdigit choice then
        match int_of_digits choice with
        | None => (Raise ValueError, more)
        | Some n =>
            if ((1 <=? n) && (n <=? Z.of_nat (List.length candidates)))%Z
            then (Ok (Pick (nth (Z.to_nat (n - 1)) candidates empty_msg)), more)
            else choose candidates more
        end
      else choose candidates more
  end.

Definition prompt_choice (candidates : list Msg) : M Choice :=
  fun st =>
    let '(r, more) := choose candidates (stdin st) in
    (r, {| requests := requests st; slept := slept st; stdin := more |}).

(** [resolve_input]; what it prints is left out. *)
Definition resolve_input (info : QueryDescriptor) : M (option Msg * string) :=
  match type info with
  | Kind.doi =>
      match doi info with
      | Some d => fetch_by_doi d
      | None => raise AttributeError
      end
  | _ =>
      let params := build_query info in
      candidates <- search_crossref params 3 ;;
      match candidates with
      | [] => ret (None, "")
      | [c] => ret (Some c, get (m_DOI c) "")
      | _ =>
          choice <- prompt_choice candidates ;;
          match choice with
          | Skip => ret (None, "")
          | Pick chosen =>
              let raw_doi := get (m_DOI chosen) "" in
              fetched <- fetch_by_doi raw_doi ;;
              let '(full, rd) := fetched in
              ret (match full with
                   | Some f => if msg_truthy f then Some f else Some chosen
                   | None => Some chosen
                   end,
                   if truthy rd then rd else raw_doi)
          end
      end
  end.

End Network.
End Client.

(* ===================================================================== *)
(** ** The processing loops *)
(* ===================================================================== *)

(** An element of [entries]: the formatted string and the record's
    authors. *)
Definition Entry : Type := (string * list Author)%type.

(** An element of the app's [ambiguous] list. *)
Record AmbItem : Type := {
  amb_line   : string;
  entry_idx  : Z;
  list_pos   : nat;
  candidates : list Msg
}.

(** The part of the app's [st.session_state] that processing uses.  In
    [entries], [None] is the placeholder of an ambiguous line. *)
Record Session : Type := {
  entries   : list (option Entry);
  ambiguous : list AmbItem;
  seen_dois : list (string * string)
}.

(** A click in the app's candidate picker: [Select] on the [n]-th card
    (from 0), or [Skip this entry]. *)
Inductive Action : Type :=
| Select (n : nat)
| SkipEntry.

Module Pipeline.
Import PyStr Classifier Client.

(** A result of pure code as a step of the monad. *)
Definition lift {A : Type} (r : Result A) : M A := fun st => (r, st).

(** [key in d] and [d[key] = value] on a dict held as an association
    list. *)
Fixpoint dict_has (key : string) (d : list (string * string)) : bool :=
  match d with
  | [] => false
  | (k, _) :: r => String.eqb key k || dict_has key r
  end.

Fixpoint dict_set (key value : string) (d : list (string * string))
  : list (string * string) :=
  match d with
  | [] => [(key, value)]
  | (k, v) :: r =>
      if String.eqb key k then (k, value) :: r
      else (k, v) :: dict_set key value r
  end.

(** [l[pos] = v], [None] when [pos] is out of range. *)
Fixpoint list_set {A : Type} (pos : nat) (v : A) (l : list A) : option (list A) :=
  match l, pos with
  | [], _ => None
  | _ :: r, O => Some (v :: r)
  | x :: r, S k =>
      match list_set k v r with
      | Some r' => Some (x :: r')
      | None => None
      end
  end.

Section Loops.

Variable urlopen : nat -> string -> Response.
Variable quote : string -> string.
Variable urlencode : SearchParams -> string.

(** The citation style chosen by the user. *)
Variable formatter : Msg -> string -> Z -> string.

(** *** The command line: the loop of [main] *)

(** The loop of [main] over [lines], entered with the current [idx] and
    [entries]. *)
Fixpoint main_loop (lines : list string) (idx : Z) (entries : list Entry)
  : M (list Entry) :=
  match lines with
  | [] => ret entries
  | line :: more =>
      info <- lift (detect_input_type line) ;;
      r <- resolve_input urlopen quote urlencode info ;;
      let '(msg, raw_doi) := r in
      match msg with
      | None => main_loop more idx entries
      | Some msg =>
          let authors_meta := get (m_author msg) [] in
          main_loop more (idx + 1)
            (entries ++ [(formatter msg raw_doi idx, authors_meta)])%list
      end
  end.

Definition main_entries (lines : list string) : M (list Entry) :=
  main_loop lines 1 [].

(** *** The app *)

(** What the Redis cache answers to [_cache_get] and [_search_cache_get]:
    [None] on a miss, on any failure, and always when no cache is
    configured.  [_cache_set] and [_search_cache_set] write to that outer
    store only. *)
Variable _cache_get : string -> option Msg.
Variable _search_cache_get : Params -> option (list Msg).

Definition cached_fetch_by_doi (doi : string) : M (option Msg * string) :=
  let raw := lstrip_chars "http://dx.doi.org/"
               (lstrip_chars "https://doi.org/" (strip doi)) in
  match _cache_get raw with
  | Some cached => ret (Some cached, raw)
  | None => fetch_by_doi urlopen quote doi
  end.

Definition cached_search_crossref (params : Params) (rows : nat) : M (list Msg) :=
  match _search_cache_get params with
  | Some cached => ret cached
  | None => search_crossref urlopen urlencode params rows
  end.

(** [full if full else c] *)
Definition or_else (full : option Msg) (c : Msg) : Msg :=
  match full with
  | Some f => if msg_truthy f then f else c
  | None => c
  end.

(** The loop of [_process_all_auto] over [lines], entered with the current
    [idx], [entries], [ambiguous] and [seen_dois]. *)
Fixpoint process_loop (lines : list string) (idx : Z) (ss : Session) : M Session :=
  match lines with
  | [] => ret ss
  | line :: more =>
      let append e seen :=
        {| entries := (entries ss ++ [e])%list;
           ambiguous := ambiguous ss;
           seen_dois := seen |} in
      info <- lift (detect_input_type line) ;;
      match type info with
      | Kind.doi =>
          doi <- lift (match doi info with
                       | Some d => Ok d
                       | None => Raise AttributeError
                       end) ;;
          r <- cached_fetch_by_doi doi ;;
          let '(msg, raw_doi) := r in
          match msg with
          | Some msg =>
              if msg_truthy msg then
                let doi_key := lower (strip raw_doi) in
                if dict_has doi_key (seen_dois ss) then
                  process_loop more idx
                    (append (Some ("[Duplicate DOI: " ++ line ++ "]", []))
                            (seen_dois ss))
                else
                  let authors_meta := get (m_author msg) [] in
                  process_loop more (idx + 1)
                    (append (Some (formatter msg raw_doi idx, authors_meta))
                            (dict_set doi_key line (seen_dois ss)))
              else
                process_loop more idx
                  (append (Some ("[Could not retrieve: " ++ line ++ "]", []))
                          (seen_dois ss))
          | None =>
              process_loop more idx
                (append (Some ("[Could not retrieve: " ++ line ++ "]", []))
                        (seen_dois ss))
          end
      | _ =>
          let params := build_query info in
          cands <- cached_search_crossref params 3 ;;
          match cands with
          | [] =>
              process_loop more idx
                (append (Some ("[No results found: " ++ line ++ "]", []))
                        (seen_dois ss))
          | [c] =>
              let raw_doi := get (m_DOI c) "" in
              let doi_key := lower (strip raw_doi) in
              if truthy doi_key && dict_has doi_key (seen_dois ss) then
                process_loop more idx
                  (append (Some ("[Duplicate: " ++ line ++ "]", []))
                          (seen_dois ss))
              else
                r <- cached_fetch_by_doi raw_doi ;;
                let '(full, rd) := r in
                let msg := or_else full c in
                let rd := if truthy rd then rd else raw_doi in
                let seen := if truthy rd
                            then dict_set (lower (strip rd)) line (seen_dois ss)
                            else seen_dois ss in
                let authors_meta := get (m_author msg) [] in
                process_loop more (idx + 1)
                  (append (Some (formatter msg rd idx, authors_meta)) seen)
          | _ =>
              process_loop more (idx + 1)
                {| entries := (entries ss ++ [None])%list;
                   ambiguous :=
                     (ambiguous ss ++
                      [ {| amb_line := line; entry_idx := idx;
                           list_pos := List.length (entries ss);
                           candidates := cands |} ])%list;
                   seen_dois := seen_dois ss |}
          end
      end
  end.

Definition _process_all_auto (lines : list string) : M Session :=
  process_loop lines 1 {| entries := []; ambiguous := []; seen_dois := [] |}.

(** [[a for a in ambiguous if entries[a["list_pos"]] is None]] *)
Definition pending (ss : Session) : list AmbItem :=
  List.filter
    (fun a => match nth_error (entries ss) (list_pos a) with
              | Some None => true
              | _ => false
              end)
    (ambiguous ss).

(** [st.session_state.entries[item["list_pos"]] = e] *)
Definition set_entry (ss : Session) (item : AmbItem) (e : Entry)
  (seen : list (string * string)) : M Session :=
  match list_set (list_pos item) (Some e) (entries ss) with
  | Some es => ret {| entries := es; ambiguous := ambiguous ss; seen_dois := seen |}
  | None => raise IndexError
  end.

(** The handler of a [Select] button on candidate [c] of [item]. *)
Definition on_select (ss : Session) (item : AmbItem) (c : Msg) : M Session :=
  let raw_doi := get (m_DOI c) "" in
  let doi_key := lower (strip raw_doi) in
  if truthy doi_key && dict_has doi_key (seen_dois ss) then
    set_entry ss item ("[Duplicate: " ++ amb_line item ++ "]", []) (seen_dois ss)
  else
    r <- cached_fetch_by_doi raw_doi ;;
    let '(full, rd) := r in
    let msg := or_else full c in
    let rd := if truthy rd then rd else raw_doi in
    let authors_meta := get (m_author msg) [] in
    let seen := if truthy rd
                then dict_set (lower (strip rd)) (amb_line item) (seen_dois ss)
                else seen_dois ss in
    set_entry ss item (formatter msg rd (entry_idx item), authors_meta) seen.

(** The handler of the [Skip this entry] button of [item]. *)
Definition on_skip (ss : Session) (item : AmbItem) : M Session :=
  set_entry ss item ("[Skipped: " ++ amb_line item ++ "]", []) (seen_dois ss).

(** The picker: each click acts on the first pending item, and the page is
    run again; clicks after the last pending item are not looked at, and
    a [Select] on a card that is not shown does nothing. *)
Fixpoint resolve_pending (actions : list Action) (ss : Session) : M Session :=
  match actions with
  | [] => ret ss
  | a :: more =>
      match pending ss with
      | [] => ret ss
      | item :: _ =>
          match a with
          | SkipEntry => ss' <- on_skip ss item ;; resolve_pending more ss'
          | Select n =>
              match nth_error (candidates item) n with
              | Some c => ss' <- on_select ss item c ;; resolve_pending more ss'
              | None => resolve_pending more ss
              end
          end
      end
  end.

Definition ERROR_PREFIXES : list string :=
  ["[Skipped"; "[Could not"; "[No results"; "[Duplicate"].

(** [e.startswith(ERROR_PREFIXES)] *)
Definition is_error_entry (e : string) : bool :=
  existsb (fun p => startswith p e) ERROR_PREFIXES.

(** [real_entries]: the numbered reference list that the app shows. *)
Definition real_entries (ss : Session) : list Entry :=
  flat_map
    (fun e => match e with
              | Some (text, meta) =>
                  if truthy text && negb (is_error_entry text)
                  then [(text, meta)] else []
              | None => []
              end)
    (entries ss).

(** [_all_resolved]: the results are shown once no placeholder is pending
    and there is at least one entry. *)
Definition all_resolved (ss : Session) : bool :=
  match pending ss, entries ss with
  | [], _ :: _ => true
  | _, _ => false
  end.

(** A run of the app: [Format References], then the clicks in the picker.
    The result is the reference list on the page, [None] while the page
    does not show it. *)
Definition app_run (lines : list string) (actions : list Action)
  : M (option (list Entry)) :=
  ss <- _process_all_auto lines ;;
  ss' <- resolve_pending actions ss ;;
  ret (if all_resolved ss' then Some (real_entries ss') else None).

End Loops.
End Pipeline.

(* ===================================================================== *)
(** ** Sample data *)
(* ===================================================================== *)

Module Samples.
Import PyStr Client.

(** The author "Jon Andrew Doe". *)
Definition jon_andrew_doe : Author :=
  {| family := Some "Doe"; given := Some "Jon Andrew"; name := None |}.

Definition hinton : Author :=
  {| family := Some "Hinton"; given := Some "Geoffrey E"; name := None |}.

(** A Nature article of 2015 by one author, with the given title. *)
Definition hinton_record (t : string) : Msg :=
  {| m_author := Some [hinton];
     m_title := Some [t];
     m_container_title := Some ["Nature"];
     m_publisher := None;
     m_volume := Some "500"; m_issue := Some "7461"; m_page := Some "123-126";
     m_published := Some {| date_parts := Some [[Some 2015%Z; Some 5%Z]] |};
     m_published_print := None; m_published_online := None; m_issued := None;
     m_DOI := None; m_other_keys := false |}.

(** A record with the given authors and nothing else. *)
Definition authors_only (l : list Author) : Msg :=
  {| m_author := Some l; m_title := None; m_container_title := None;
     m_publisher := None; m_volume := None; m_issue := None; m_page := None;
     m_published := None; m_published_print := None;
     m_published_online := None; m_issued := None; m_DOI := None;
     m_other_keys := false |}.

Definition author_of (f g : string) : Author :=
  {| family := Some f; given := Some g; name := None |}.

Definition six_authors : list Author :=
  [ author_of "Ng" "Andrew Y"; author_of "Li" "Fei Fei"; author_of "Le" "Quoc";
    author_of "He" "Kaiming"; author_of "Xu" "Kelvin"; author_of "Wu" "Yonghui" ].

Definition seven_authors : list Author :=
  (six_authors ++ [author_of "Ba" "Jimmy"])%list.

(** A search answer with two candidates, and the full record of a DOI. *)
Definition candidate (d t : string) : Msg :=
  {| m_author := None; m_title := Some [t]; m_container_title := None;
     m_publisher := None; m_volume := None; m_issue := None; m_page := None;
     m_published := None; m_published_print := None;
     m_published_online := None; m_issued := None; m_DOI := Some d;
     m_other_keys := true |}.

Definition lecun_record : Msg :=
  {| m_author := Some [author_of "LeCun" "Yann"; author_of "Bengio" "Yoshua";
                       author_of "Hinton" "Geoffrey"];
     m_title := Some ["Deep learning"];
     m_container_title := Some ["Nature"];
     m_publisher := None;
     m_volume := Some "521"; m_issue := Some "7553"; m_page := Some "436-444";
     m_published := Some {| date_parts := Some [[Some 2015%Z]] |};
     m_published_print := None; m_published_online := None; m_issued := None;
     m_DOI := Some "10.1038/nature14539"; m_other_keys := false |}.

(** A service that answers the first request (the search) with two
    candidates and every later one with the record above. *)
Definition two_then_record (n : nat) (url : string) : Response :=
  match n with
  | O => Resp_ok (Data_dict (Some
           {| work := empty_msg;
              items := Some [ candidate "10.1000/a" "Deep learning in A";
                              candidate "10.1000/b" "Deep learning in B" ] |}))
  | S _ => Resp_ok (Data_dict (Some {| work := lecun_record; items := None |}))
  end.

(** A service that is down. *)
Definition always_down (n : nat) (url : string) : Response := Resp_network_error.

(** A service that refuses the second request with HTTP 404. *)
Definition down_then_404 (n : nat) (url : string) : Response :=
  match n with
  | O => Resp_HTTPError 503 RA_absent
  | S _ => Resp_HTTPError 404 RA_absent
  end.

Definition plain_quote (raw : string) : string := raw.

Definition plain_urlencode (p : SearchParams) : string :=
  "query.title=" ++ get (query_title (query_params p)) "".

Definition no_cache {K V : Type} (key : K) : option V := None.

(** The queries that the author "Jon Andrew Doe" is expected to match. *)
Definition doe_queries : list string :=
  [ "doe"; "jon andrew"; "jon andrew doe"; "doe, jon andrew"; "jon doe";
    "doe, jon"; "doe ja"; "ja doe"; "doe, ja"; "do"; "oe"; "jon" ].

(** The same queries without "oe". *)
Definition doe_queries_accepted : list string :=
  [ "doe"; "jon andrew"; "jon andrew doe"; "doe, jon andrew"; "jon doe";
    "doe, jon"; "doe ja"; "ja doe"; "doe, ja"; "do"; "jon" ].

(** The descriptor of the line "Deep learning". *)
Definition deep_learning_query : QueryDescriptor :=
  {| type := Kind.title_only; doi := None; title := Some "Deep learning";
     author := None; journal := None; year := None; raw := "Deep learning" |}.

Definition start (lines : list string) : State :=
  {| requests := 0; slept := []; stdin := lines |}.

Definition two_lines : list string := ["Deep learning"; "10.1038/nature14539"].

End Samples.

(** A response after which the loop of [_get] goes on to the next attempt:
    HTTP 429 with a [Retry-After] that can be slept, HTTP 5xx, or a
    network error. *)
Definition retryable (r : Response) : bool :=
  match r with
  | Resp_HTTPError code ra =>
      if (code =? 429)%Z then
        match ra with
        | RA_absent => true
        | RA_int n => ((0 <=? n) && (n <=? 9223372036))%Z
        | RA_invalid => false
        end
      else (500 <=? code)%Z
  | Resp_network_error => true
  | Resp_ok _ | Resp_decode_error => false
  end.


(** The invariant of a query descriptor. *)
Definition descriptor_invariant (r : QueryDescriptor) : Prop :=
  (type r = Kind.doi <-> doi r <> None)
  /\ (type r = Kind.doi ->
      title r = None /\ author r = None /\ journal r = None /\ year r = None)
  /\ (type r <> Kind.doi -> doi r = None).

(* ===================================================================== *)
(** ** The other citation styles and the registry *)
(* ===================================================================== *)

Module Styles.
Import PyStr Formatters.

(** [sp.append(extra)] when [cond] is a non-empty string. *)
Definition append_if (cond : string) (extra : string) (sp : list string)
  : list string :=
  if truthy cond then (sp ++ [extra])%list else sp.

Definition fmt_mla (msg : Msg) (raw_doi : string) (idx : Z) : string :=
  let authors := get_authors msg in
  let author_str :=
    match authors with
    | [] => "Unknown"
    | first :: _ =>
        let first_family := get (family first) "?" in
        let first_given := get (given first) "" in
        let author_str :=
          strip_chars ", " (first_family ++ ", " ++ first_given) in
        if (List.length authors =? 2)%nat then
          let s := nth 1 authors first in
          let si := join "" (map initial_dot (split_ws (get (given s) ""))) in
          author_str ++ strip (", and " ++ si ++ " " ++ get (family s) "?")
        else if (2 <? List.length authors)%nat then author_str ++ ", et al."
        else author_str
    end in
  let vol := get_volume msg in
  let issue := get_issue msg in
  let pages := get_pages msg in
  let sp := [get_journal msg] in
  let sp := append_if vol ("vol. " ++ vol) sp in
  let sp := append_if issue ("no. " ++ issue) sp in
  let sp := (sp ++ [get_year msg])%list in
  let sp := append_if pages ("pp. " ++ pages) sp in
  str_int idx ++ ". " ++ author_str ++ ". " ++ quote_char ++ get_title msg
  ++ "." ++ quote_char ++ " " ++ join ", " sp ++ ", https://doi.org/"
  ++ raw_doi ++ ".".

Definition fmt_chicago (msg : Msg) (raw_doi : string) (idx : Z) : string :=
  let names := get_full_names_last_first (get_authors msg) in
  let authors :=
    if (List.length names =? 0)%nat then "Unknown"
    else if (List.length names =? 1)%nat then nth 0 names ""
    else if (List.length names <=? 3)%nat then
      join ", " (removelast names) ++ ", and " ++ last names ""
    else nth 0 names "" ++ ", et al." in
  let vol := get_volume msg in
  let issue := get_issue msg in
  let pages := get_pages msg in
  let source := get_journal msg in
  let source := add_if vol (" " ++ vol) source in
  let source := add_if issue (" (" ++ issue ++ ")") source in
  let source := add_if pages (": " ++ pages) source in
  str_int idx ++ ". " ++ authors ++ ". " ++ get_year msg ++ ". " ++ quote_char
  ++ get_title msg ++ "." ++ quote_char ++ " " ++ source
  ++ ". https://doi.org/" ++ raw_doi ++ ".".

Definition fmt_harvard (msg : Msg) (raw_doi : string) (idx : Z) : string :=
  let names := get_full_names_last_first (get_authors msg) in
  let authors :=
    if (List.length names =? 0)%nat then "Unknown"
    else if (List.length names =? 1)%nat then nth 0 names ""
    else if (List.length names <=? 3)%nat then
      join ", " (removelast names) ++ " and " ++ last names ""
    else nth 0 names "" ++ " et al." in
  let vol := get_volume msg in
  let issue := get_issue msg in
  let pages := get_pages msg in
  let source := "*" ++ get_journal msg ++ "*" in
  let source := add_if vol (", " ++ vol) source in
  let source := add_if issue ("(" ++ issue ++ ")") source in
  let source := add_if pages (", pp. " ++ pages) source in
  str_int idx ++ ". " ++ authors ++ " (" ++ get_year msg ++ ") '"
  ++ get_title msg ++ "', " ++ source ++ ". doi: https://doi.org/"
  ++ raw_doi ++ ".".

Definition fmt_acs (msg : Msg) (raw_doi : string) (idx : Z) : string :=
  let names := get_full_names_last_first (get_authors msg) in
  let authors :=
    if (List.length names =? 0)%nat then "Unknown"
    else if (List.length names =? 1)%nat then nth 0 names ""
    else join "; " names in
  let vol := get_volume msg in
  let issue := get_issue msg in
  let pages := get_pages msg in
  let source := "*" ++ get_journal msg ++ "*" in
  let source :=
    if truthy vol then
      let source := source ++ " **" ++ get_year msg ++ "**, *" ++ vol ++ "*" in
      let source := add_if issue (" (" ++ issue ++ ")") source in
      add_if pages (", " ++ pages) source
    else source ++ " " ++ get_year msg in
  str_int idx ++ ". " ++ authors ++ ". " ++ get_title msg ++ ". "
  ++ source ++ ". https://doi.org/" ++ raw_doi ++ ".".

Definition fmt_nature (msg : Msg) (raw_doi : string) (idx : Z) : string :=
  let names := get_full_names_first_last (get_authors msg) in
  let authors :=
    if (List.length names =? 0)%nat then "Unknown"
    else if (List.length names <=? 5)%nat then join ", " names
    else join ", " (firstn 5 names) ++ " et al." in
  let vol := get_volume msg in
  let pages := get_pages msg in
  let source := "*" ++ get_journal msg ++ "*" in
  let source := add_if vol (" **" ++ vol ++ "**") source in
  let source := add_if pages (", " ++ pages) source in
  str_int idx ++ ". " ++ authors ++ ". " ++ get_title msg ++ ". "
  ++ source ++ " (" ++ get_year msg ++ "). https://doi.org/" ++ raw_doi.

(** The registry [FORMATS]: key, label and formatter, in the order of the
    dict. *)
Definition FORMATS : list (string * (string * (Msg -> string -> Z -> string))) :=
  [ ("1",  ("Plain summary", fmt_plain));
    ("2",  ("APA 7th", fmt_apa));
    ("3",  ("MLA 9th", fmt_mla));
    ("4",  ("Chicago 17th (author-date)", fmt_chicago));
    ("5",  ("Vancouver / ICMJE", fmt_vancouver));
    ("6",  ("Harvard", fmt_harvard));
    ("7",  ("IEEE", fmt_ieee));
    ("8",  ("AMA (American Medical Association)", fmt_ama));
    ("9",  ("ACS (American Chemical Society)", fmt_acs));
    ("10", ("Nature", fmt_nature)) ].

End Styles.

(* ===================================================================== *)
(** ** Markup, name variants and highlight targets *)
(* ===================================================================== *)

Module Markup.
Import PyStr.

Definition newline : ascii := "010"%char.

(** The lazy [(.*?)] followed by the marker [m]: the number of characters,
    none of them a newline, before the first place where [m] stands. *)
Fixpoint close (m : string) (s : string) : option nat :=
  if prefix m s then Some 0
  else match s with
       | EmptyString => None
       | String c r =>
           if Ascii.eqb c newline then None else option_map S (close m r)
       end.

(** [re.sub(m (.*?) m, r'\1', text)] for a marker [m] made of stars.
    Inside a match, [skip1] characters of the opening marker are still to
    be dropped, then [copy] characters kept, then [skip2] characters of the
    closing marker dropped. *)
Fixpoint sub_from (m : string) (skip1 copy skip2 : nat) (s : string) : string :=
  match s with
  | EmptyString => EmptyString
  | String c r =>
      match skip1, copy, skip2 with
      | S k, _, _ => sub_from m k copy skip2 r
      | O, S n, _ => String c (sub_from m 0 n skip2 r)
      | O, O, S k => sub_from m 0 0 k r
      | O, O, O =>
          if prefix m s then
            match close m (drop (String.length m) s) with
            | Some n => sub_from m (String.length m - 1) n (String.length m) r
            | None => String c (sub_from m 0 0 0 r)
            end
          else String c (sub_from m 0 0 0 r)
      end
  end.

Definition sub_marker (m text : string) : string := sub_from m 0 0 0 text.

Definition _strip_markup (text : string) : string :=
  sub_marker "*" (sub_marker "**" text).

Definition _md_passthrough (text : string) : string := text.

End Markup.

Module Targets.
Import PyStr Highlight Pipeline.

(** [sorted(l, key=len, reverse=True)]: longest first, strings of one
    length in their order in [l]. *)
Fixpoint insert_by_len (x : string) (l : list string) : list string :=
  match l with
  | [] => [x]
  | y :: r =>
      if (String.length y <=? String.length x)%nat then x :: y :: r
      else y :: insert_by_len x r
  end.

Definition sorted_by_len_desc (l : list string) : list string :=
  fold_right insert_by_len [] l.

(** The loop that removes empty strings and repeats (letter case
    ignored); [seen] holds the lowered strings kept so far. *)
Fixpoint dedupe (seen : list string) (variants : list string) : list string :=
  match variants with
  | [] => []
  | v :: more =>
      if truthy v && negb (mem (lower v) seen)
      then v :: dedupe (lower v :: seen) more
      else dedupe seen more
  end.

(** [p[0] + "."] for a token of [given.split()]. *)
Definition dotted (p : string) : string := first_char p ++ ".".

Definition _rendered_name_variants (author_dict : Author) : list string :=
  let family := strip (get (family author_dict) "") in
  let given := strip (get (given author_dict) "") in
  if negb (truthy family) then
    let name := get (name author_dict) "" in
    if truthy name then [name] else []
  else
    let given_parts := if truthy given then split_ws given else [] in
    let initials_dot := join "" (map dotted given_parts) in
    let initials_dot_sp := join " " (map dotted given_parts) in
    let first_init :=
      match given_parts with
      | p :: _ => dotted p
      | [] => ""
      end in
    let variants :=
      if truthy given then
        dedupe []
          [ given ++ " " ++ family;
            family ++ ", " ++ given;
            family ++ " " ++ given;
            family ++ ", " ++ initials_dot;
            family ++ ", " ++ initials_dot_sp;
            family ++ ", " ++ first_init;
            family ++ " " ++ initials_dot;
            family ++ " " ++ first_init;
            initials_dot ++ " " ++ family;
            initials_dot_sp ++ " " ++ family;
            first_init ++ " " ++ family ]
      else [] in
    let variants :=
      if negb (mem (lower family) (map lower variants))
      then (variants ++ [family])%list else variants in
    sorted_by_len_desc variants.

(** The three nested loops of [_build_highlight_targets]; [targets] is the
    dict from lowered variant to variant. *)
Definition add_variants (targets : list (string * string)) (author : Author)
  : list (string * string) :=
  fold_left (fun t variant => dict_set (lower variant) variant t)
            (_rendered_name_variants author) targets.

Definition add_author (query_list : list string)
  (targets : list (string * string)) (author : Author) : list (string * string) :=
  fold_left (fun t q => if _author_matches_query author q
                        then add_variants t author else t)
            query_list targets.

Definition _build_highlight_targets (authors_meta_list : list (list Author))
  (query_list : list string) : list string :=
  let targets :=
    fold_left (fun t authors => fold_left (add_author query_list) authors t)
              authors_meta_list [] in
  sorted_by_len_desc (map snd targets).

End Targets.

(* ===================================================================== *)
(** ** Reading the input lines *)
(* ===================================================================== *)

Module Input.
Import PyStr Classifier.

(** The comprehension of [main] over the lines of the file:
    [[l.strip() for l in f if l.strip() and not l.startswith("#")]]. *)
Definition entry_lines (f : list string) : list string :=
  map strip
    (List.filter (fun l => truthy (strip l) && negb (startswith "#" l)) f).

(** A line boundary of [str.splitlines]. *)
Definition is_line_break (c : ascii) : bool :=
  between 10 13 c || between 28 30 c || (code c =? 133)%N.

(** [raw.splitlines()]; [cur] is the line being read, in reverse.  A
    carriage return followed by a line feed is one boundary. *)
Fixpoint splitlines_from (cur : string) (s : string) : list string :=
  match s with
  | EmptyString =>
      match cur with
      | EmptyString => []
      | _ => [rev_string EmptyString cur]
      end
  | String c r =>
      if is_line_break c then
        rev_string EmptyString cur ::
          match r with
          | String d r' =>
              if Ascii.eqb c "013"%char && Ascii.eqb d "010"%char
              then splitlines_from EmptyString r'
              else splitlines_from EmptyString r
          | EmptyString => []
          end
      else splitlines_from (String c cur) r
  end.

Definition splitlines (raw : string) : list string :=
  splitlines_from EmptyString raw.

(** A literal, letter case respected. *)
Definition lit (p : string) : Matcher :=
  fun s => if prefix p s then [drop (String.length p) s] else [].

(** [https?://(?:dx[.])?doi[.]org/] *)
Definition resolver_prefix : Matcher :=
  seq (lit "http") (seq (opt (lit "s")) (seq (lit "://")
      (seq (opt (lit "dx.")) (lit "doi.org/")))).

(** [re.sub(resolver_prefix, '', line)]; [skip] counts the characters of
    the match just found that are still to be dropped. *)
Fixpoint drop_resolver_from (skip : nat) (s : string) : string :=
  match s with
  | EmptyString => EmptyString
  | String c r =>
      match skip with
      | S k => drop_resolver_from k r
      | O =>
          match resolver_prefix s with
          | rest :: _ =>
              drop_resolver_from (String.length s - String.length rest - 1) r
          | [] => String c (drop_resolver_from 0 r)
          end
      end
  end.

(** [re.sub(r'[|.,;:\-]', ' ', line)] *)
Fixpoint punct_to_space (s : string) : string :=
  match s with
  | EmptyString => EmptyString
  | String c r =>
      String (if mem_char c "|.,;:-" then " "%char else c) (punct_to_space r)
  end.

(** [re.sub(r'[^\w\s]', '', line)] *)
Fixpoint keep_word_space (s : string) : string :=
  match s with
  | EmptyString => EmptyString
  | String c r =>
      if is_word c || is_space c then String c (keep_word_space r)
      else keep_word_space r
  end.

(** [re.sub(r'\s+', ' ', line)]; [in_run] tells that the character before
    was whitespace. *)
Fixpoint collapse_spaces (in_run : bool) (s : string) : string :=
  match s with
  | EmptyString => EmptyString
  | String c r =>
      if is_space c then
        if in_run then collapse_spaces true r
        else String " "%char (collapse_spaces true r)
      else String c (collapse_spaces false r)
  end.

Definition _normalise_key (line : string) : string :=
  let line := lower (strip line) in
  let line := drop_resolver_from 0 line in
  let line := punct_to_space line in
  let line := keep_word_space line in
  strip (collapse_spaces false line).

(** The loop of [_parse_lines]; the state is
    [(seen_keys, result, duplicates)]. *)
Definition parse_step (st : list string * list string * list string)
  (l0 : string) : list string * list string * list string :=
  let '(seen_keys, result, duplicates) := st in
  let l := strip l0 in
  if negb (truthy l) || startswith "#" l then st
  else
    let key := _normalise_key l in
    if mem key seen_keys then (seen_keys, result, (duplicates ++ [l])%list)
    else (key :: seen_keys, (result ++ [l])%list, duplicates).

Definition parse_list (lines : list string) : list string * list string :=
  let '(_, result, duplicates) := fold_left parse_step lines ([], [], []) in
  (result, duplicates).

Definition _parse_lines (raw : string) : list string * list string :=
  parse_list (splitlines raw).

End Input.

(* ===================================================================== *)
(** ** Predicates used in the statements *)
(* ===================================================================== *)

Module Props.
Import PyStr.

(** Every character of [s] is in the class [p]. *)
Fixpoint all_chars (p : ascii -> bool) (s : string) : bool :=
  match s with
  | EmptyString => true
  | String c r => p c && all_chars p r
  end.

(** A year token: "19" or "20" followed by two digits. *)
Definition is_year_token (y : string) : bool :=
  match y with
  | String c1 (String c2 (String c3 (String c4 EmptyString))) =>
      (String.eqb (String c1 (String c2 "")) "19"
       || String.eqb (String c1 (String c2 "")) "20")
      && is_digit c3 && is_digit c4
  | _ => false
  end.

(** The resolver prefixes, in lower case. *)
Definition resolver_prefixes : list string :=
  [ "https://doi.org/"; "http://doi.org/";
    "https://dx.doi.org/"; "http://dx.doi.org/" ].

(** A descriptor without its [raw] line. *)
Definition forget_raw (r : QueryDescriptor) : QueryDescriptor :=
  {| type := type r; doi := doi r; title := title r; author := author r;
     journal := journal r; year := year r; raw := "" |}.

Definition map_result {A B : Type} (f : A -> B) (r : Result A) : Result B :=
  match r with
  | Ok a => Ok (f a)
  | Raise e => Raise e
  end.


(** The strings of [l] come longest first. *)
Fixpoint longest_first (l : list string) : Prop :=
  match l with
  | [] => True
  | x :: r =>
      Forall (fun y => String.length y <= String.length x) r
      /\ longest_first r
  end.

End Props.

(** A matcher consumes a prefix of its input, and what it consumes
    satisfies [P]. *)
Definition consumes (P : string -> Prop) (m : Classifier.Matcher) : Prop :=
  forall s r, In r (m s) -> exists u, s = u ++ r /\ P u.

(** What the loop over the parts keeps: the year is a year token and no
    clean part is empty. *)
Definition parts_ok (st : option string * list string) : Prop :=
  (forall y, fst st = Some y -> Props.is_year_token y = true)
  /\ Forall (fun p => PyStr.truthy p = true) (snd st).

(** A character that is not a star, and one that is neither a star nor a
    newline. *)
Definition not_star (c : ascii) : bool := negb (Ascii.eqb c "*"%char).

Definition plain_char (c : ascii) : bool :=
  negb (Ascii.eqb c "*"%char) && negb (Ascii.eqb c "010"%char).

(** A line that [_parse_lines] and [main] keep: trimmed, not empty, and
    not a comment. *)
Definition is_entry_line (l : string) : Prop :=
  PyStr.strip l = l /\ l <> "" /\ PyStr.startswith "#" l = false.

(** Does the app look at the line [l0] of the text area? *)
Definition counts_as_entry (l0 : string) : bool :=
  PyStr.truthy (PyStr.strip l0) && negb (PyStr.startswith "#" (PyStr.strip l0)).

(** Every item of [ambiguous] points at a placeholder of [entries]. *)
Definition placeholders_ok (ss : Session) : Prop :=
  Forall (fun a => nth_error (entries ss) (list_pos a) = Some None)
         (ambiguous ss).

Import PyStr Classifier Formatters Highlight Client Pipeline Samples.

(* ===================================================================== *)
(** ** Classification *)
(* ===================================================================== *)

(** C1. [detect_input_type] does not return a descriptor for every line: on
    a line that is only a year, such as ["2017"], no part is left after the
    year is taken out, the dispatch on the number of parts falls through to
    the branch for four parts or more, and [clean_parts[0]] raises
    [IndexError].  The same happens on a line made of separators only. *)
Theorem detect_input_type_year_only_raises :
  detect_input_type "2017" = Raise IndexError
  /\ detect_input_type "|" = Raise IndexError.
Proof. split; vm_compute; reflexivity. Qed.

(** C5. The line ["Attention is all you need | 2017"] is classified as
    [title_only], not [title_year]: its title and year are the expected
    ones, but the year part is dropped before the parts are counted, so
    only one part is left. *)
Theorem detect_input_type_title_pipe_year :
  detect_input_type "Attention is all you need | 2017"
  = Ok {| type := Kind.title_only;
          doi := None;
          title := Some "Attention is all you need";
          author := None;
          journal := None;
          year := Some "2017";
          raw := "Attention is all you need | 2017" |}.
Proof. vm_compute. reflexivity. Qed.

(** C9. Every descriptor that [detect_input_type] returns satisfies the
    invariant: its kind is [doi] exactly when its [doi] field is set, a
    [doi] descriptor has no title, author, journal or year, and any other
    descriptor has no [doi]. *)
Theorem detect_input_type_invariant :
  forall (line : string) (r : QueryDescriptor),
    detect_input_type line = Ok r -> descriptor_invariant r.
Proof.
  intros line r H. unfold detect_input_type in H.
  destruct (DOI_RE_match (strip line)) as [g2|].
  - inversion H; subst; clear H. unfold descriptor_invariant; simpl.
    repeat split; try reflexivity; try discriminate; intros; congruence.
  - destruct (fold_left year_step (map strip (split_on "|" (strip line))) (None, []))
      as [yr clean_parts].
    destruct clean_parts as [|a [|b [|c [|d rest]]]];
      try discriminate;
      repeat match type of H with
             | context [if ?b then _ else _] => destruct b
             end;
      inversion H; subst; clear H;
      unfold descriptor_invariant; simpl;
      (repeat split; try reflexivity; try discriminate; intros; congruence).
Qed.

Lemma detect_input_type_invariant_witness :
  detect_input_type "https://doi.org/10.1038/nature12345"
  = Ok {| type := Kind.doi; doi := Some "10.1038/nature12345";
          title := None; author := None; journal := None; year := None;
          raw := "https://doi.org/10.1038/nature12345" |}
  /\ descriptor_invariant
       {| type := Kind.doi; doi := Some "10.1038/nature12345";
          title := None; author := None; journal := None; year := None;
          raw := "https://doi.org/10.1038/nature12345" |}.
Proof.
  split.
  - vm_compute. reflexivity.
  - apply (detect_input_type_invariant "https://doi.org/10.1038/nature12345").
    vm_compute. reflexivity.
Defined.

(* ===================================================================== *)
(** ** Author matching and highlighting *)
(* ===================================================================== *)

(** C3, as stated, fails: the query ["oe"] has two characters, and a
    substring of the family name is accepted only from three characters
    on. *)
Lemma author_matches_not_all_doe_queries :
  ~ (forall q, In q doe_queries -> _author_matches_query jon_andrew_doe q = true).
Proof.
  intros H. specialize (H "oe").
  assert (E : _author_matches_query jon_andrew_doe "oe" = false)
    by (vm_compute; reflexivity).
  rewrite H in E; [discriminate|].
  unfold doe_queries; simpl; tauto.
Qed.

(** C3, amended.  The author "Jon Andrew Doe" matches each of the queries
    "doe", "jon andrew", "jon andrew doe", "doe, jon andrew", "jon doe",
    "doe, jon", "doe ja", "ja doe", "doe, ja", "do" and "jon"; the query
    "oe", shorter than the three characters asked of a substring, does not
    match. *)
Theorem author_matches_doe_queries :
  (forall q, In q doe_queries_accepted ->
     _author_matches_query jon_andrew_doe q = true)
  /\ _author_matches_query jon_andrew_doe "oe" = false.
Proof.
  split; [|vm_compute; reflexivity].
  intros q H. unfold doe_queries_accepted in H. simpl in H.
  repeat (destruct H as [<-|H]; [vm_compute; reflexivity|]).
  contradiction.
Qed.

Lemma author_matches_doe_queries_witness :
  In "jon doe" doe_queries_accepted
  /\ _author_matches_query jon_andrew_doe "jon doe" = true.
Proof.
  assert (H : In "jon doe" doe_queries_accepted)
    by (unfold doe_queries_accepted; simpl; tauto).
  split; [exact H|].
  exact (proj1 author_matches_doe_queries "jon doe" H).
Defined.

(** C2. [_apply_highlight] is not idempotent.  With the Markdown pair, whose
    opening and closing tags are the same string, the count of opening tags
    before a match never exceeds the count of closing tags, so a second run
    wraps ["Doe"] again.  With the HTML and PDF pairs the counts are taken
    on the text since the previous match only, so from the second
    occurrence on a wrapped name is wrapped again.  Within one run on the
    targets ["J. Doe"] and ["Doe"] the Markdown pair nests the shorter name
    inside the longer one. *)
Theorem apply_highlight_wraps_twice :
  _apply_highlight "Doe" ["Doe"] "**" "**" = "**Doe**"
  /\ _apply_highlight (_apply_highlight "Doe" ["Doe"] "**" "**") ["Doe"] "**" "**"
     = "****Doe****"
  /\ _apply_highlight "Doe, Doe" ["Doe"] "<strong>" "</strong>"
     = "<strong>Doe</strong>, <strong>Doe</strong>"
  /\ _apply_highlight
       (_apply_highlight "Doe, Doe" ["Doe"] "<strong>" "</strong>")
       ["Doe"] "<strong>" "</strong>"
     = "<strong>Doe</strong>, <strong><strong>Doe</strong></strong>"
  /\ _apply_highlight (_apply_highlight "Doe, Doe" ["Doe"] "<b>" "</b>")
       ["Doe"] "<b>" "</b>"
     = "<b>Doe</b>, <b><b>Doe</b></b>"
  /\ _apply_highlight "1. J. Doe, Title" ["J. Doe"; "Doe"] "**" "**"
     = "1. **J. **Doe****, Title".
Proof. repeat split; vm_compute; reflexivity. Qed.

(* ===================================================================== *)
(** ** Formatters *)
(* ===================================================================== *)

(** C4, as stated, fails: the given name "Geoffrey E" has two tokens, and
    each gives an initial, so the author is rendered "Hinton, G.E." and not
    "Hinton, G.". *)
Lemma fmt_apa_hinton_not_single_initial :
  fmt_apa (hinton_record "Deep learning") "10.1/x" 1
  <> "1. Hinton, G. (2015). Deep learning. Nature, 500(7461), 123-126. https://doi.org/10.1/x".
Proof. vm_compute. discriminate. Qed.

(** C4, amended.  For a record with journal "Nature", volume "500", issue
    "7461", page "123-126", year "2015" and exactly one author (family
    "Hinton", given "Geoffrey E"), [fmt_apa] with ordinal 1 and canonical
    id "10.1/x" gives exactly
    "1. Hinton, G.E. (2015). <title>. Nature, 500(7461), 123-126. https://doi.org/10.1/x",
    <title> being the record's primary title. *)
Theorem fmt_apa_hinton :
  forall msg : Msg,
    get_authors msg = [hinton] ->
    get_journal msg = "Nature" ->
    get_volume msg = "500" ->
    get_issue msg = "7461" ->
    get_pages msg = "123-126" ->
    get_year msg = "2015" ->
    fmt_apa msg "10.1/x" 1
    = "1. Hinton, G.E. (2015). " ++ get_title msg
      ++ ". Nature, 500(7461), 123-126. https://doi.org/10.1/x".
Proof.
  intros msg Ha Hj Hv Hi Hp Hy. unfold fmt_apa.
  rewrite Ha, Hj, Hv, Hi, Hp, Hy.
  reflexivity.
Qed.

Lemma fmt_apa_hinton_witness :
  fmt_apa (hinton_record "Deep learning") "10.1/x" 1
  = "1. Hinton, G.E. (2015). Deep learning. Nature, 500(7461), 123-126. https://doi.org/10.1/x".
Proof.
  apply (fmt_apa_hinton (hinton_record "Deep learning")); reflexivity.
Defined.

Lemma length_last_first :
  forall authors,
    List.length (get_full_names_last_first authors) = List.length authors.
Proof. intros; unfold get_full_names_last_first; apply length_map. Qed.

Lemma length_first_last :
  forall authors,
    List.length (get_full_names_first_last authors) = List.length authors.
Proof. intros; unfold get_full_names_first_last; apply length_map. Qed.

(** C7. For a record with exactly 6 authors, [fmt_vancouver], [fmt_ieee]
    and [fmt_ama] each render the 6 names joined by ", " and nothing after
    them; for a record with exactly 7 authors, each renders the first 6
    names joined by ", ", followed by "et al." (after a comma for Vancouver
    and AMA, after a space for IEEE). *)
Theorem six_names_then_et_al :
  forall (msg : Msg) (raw_doi : string) (idx : Z),
    let last_first := get_full_names_last_first (get_authors msg) in
    let first_last := get_full_names_first_last (get_authors msg) in
    (List.length (get_authors msg) = 6 ->
       List.length last_first = 6 /\ List.length first_last = 6
       /\ fmt_vancouver msg raw_doi idx
          = str_int idx ++ ". " ++ join ", " last_first ++ ". "
            ++ get_title msg ++ ". " ++ vancouver_source msg
            ++ ". https://doi.org/" ++ raw_doi ++ "."
       /\ fmt_ieee msg raw_doi idx
          = "[" ++ str_int idx ++ "] " ++ join ", " first_last ++ ", "
            ++ quote_char ++ get_title msg ++ "," ++ quote_char ++ " "
            ++ ieee_source msg ++ ", " ++ get_year msg
            ++ ", doi: https://doi.org/" ++ raw_doi ++ "."
       /\ fmt_ama msg raw_doi idx
          = str_int idx ++ ". " ++ join ", " last_first ++ ". "
            ++ get_title msg ++ ". " ++ ama_source msg
            ++ ". doi:https://doi.org/" ++ raw_doi)
    /\ (List.length (get_authors msg) = 7 ->
       List.length (firstn 6 last_first) = 6
       /\ List.length (firstn 6 first_last) = 6
       /\ fmt_vancouver msg raw_doi idx
          = str_int idx ++ ". " ++ (join ", " (firstn 6 last_first) ++ ", et al.")
            ++ ". " ++ get_title msg ++ ". " ++ vancouver_source msg
            ++ ". https://doi.org/" ++ raw_doi ++ "."
       /\ fmt_ieee msg raw_doi idx
          = "[" ++ str_int idx ++ "] "
            ++ (join ", " (firstn 6 first_last) ++ " et al.") ++ ", "
            ++ quote_char ++ get_title msg ++ "," ++ quote_char ++ " "
            ++ ieee_source msg ++ ", " ++ get_year msg
            ++ ", doi: https://doi.org/" ++ raw_doi ++ "."
       /\ fmt_ama msg raw_doi idx
          = str_int idx ++ ". " ++ (join ", " (firstn 6 last_first) ++ ", et al.")
            ++ ". " ++ get_title msg ++ ". " ++ ama_source msg
            ++ ". doi:https://doi.org/" ++ raw_doi).
Proof.
  intros msg raw_doi idx last_first first_last.
  assert (Hlf : List.length last_first = List.length (get_authors msg))
    by apply length_last_first.
  assert (Hfl : List.length first_last = List.length (get_authors msg))
    by apply length_first_last.
  split; intros Hn.
  - rewrite Hn in Hlf, Hfl.
    repeat split; try assumption.
    + unfold fmt_vancouver. fold last_first. rewrite Hlf. reflexivity.
    + unfold fmt_ieee. fold first_last. rewrite Hfl. reflexivity.
    + unfold fmt_ama. fold last_first. rewrite Hlf. reflexivity.
  - rewrite Hn in Hlf, Hfl.
    repeat split.
    + rewrite length_firstn, Hlf. reflexivity.
    + rewrite length_firstn, Hfl. reflexivity.
    + unfold fmt_vancouver. fold last_first. rewrite Hlf. reflexivity.
    + unfold fmt_ieee. fold first_last. rewrite Hfl. reflexivity.
    + unfold fmt_ama. fold last_first. rewrite Hlf. reflexivity.
Qed.

Lemma six_names_then_et_al_witness :
  (List.length (get_authors (authors_only six_authors)) = 6
   /\ fmt_vancouver (authors_only six_authors) "10.1/x" 3
      = "3. Ng, A.Y., Li, F.F., Le, Q., He, K., Xu, K., Wu, Y.. Untitled. . n.d.. https://doi.org/10.1/x.")
  /\ (List.length (get_authors (authors_only seven_authors)) = 7
      /\ fmt_ieee (authors_only seven_authors) "10.1/x" 3
         = "[3] A.Y. Ng, F.F. Li, Q. Le, K. He, K. Xu, Y. Wu et al., "
           ++ quote_char ++ "Untitled," ++ quote_char
           ++ " **, n.d., doi: https://doi.org/10.1/x.").
Proof.
  split; (split; [reflexivity|]).
  - apply (proj1 (six_names_then_et_al (authors_only six_authors) "10.1/x" 3)).
    reflexivity.
  - apply (proj1 (proj2 (proj2 (proj2
      (proj2 (six_names_then_et_al (authors_only seven_authors) "10.1/x" 3)
         eq_refl))))).
Defined.

(* ===================================================================== *)
(** ** The metadata client *)
(* ===================================================================== *)

Section ClientFacts.

Variable urlopen : nat -> string -> Response.
Variable quote : string -> string.
Variable urlencode : SearchParams -> string.

Lemma sleep_requests :
  forall n st, requests (snd (sleep n st)) = requests st.
Proof.
  intros n st. unfold sleep.
  destruct (n <? 0)%Z; [reflexivity|].
  destruct (9223372036 <? n)%Z; reflexivity.
Qed.

Lemma backoff_can_sleep :
  forall attempt st,
    (0 <= attempt <= 33)%Z ->
    exists st', sleep (BACKOFF_BASE ^ attempt) st = (Ok tt, st')
                /\ requests st' = requests st.
Proof.
  intros attempt st [H0 H33]. unfold sleep, BACKOFF_BASE.
  assert (Hlo : (0 < 2 ^ attempt)%Z) by (apply Z.pow_pos_nonneg; lia).
  assert (Hhi : (2 ^ attempt <= 2 ^ 33)%Z) by (apply Z.pow_le_mono_r; lia).
  change (2 ^ 33)%Z with 8589934592%Z in Hhi.
  destruct (Z.ltb_spec (2 ^ attempt) 0); [lia|].
  destruct (Z.ltb_spec 9223372036 (2 ^ attempt)); [lia|].
  eexists; split; reflexivity.
Qed.

(** After a retryable response the loop goes on with the next attempt, one
    request later. *)
Lemma _get_from_retry :
  forall url attempt left st,
    (0 <= attempt <= 33)%Z ->
    retryable (urlopen (requests st) url) = true ->
    exists st',
      _get_from urlopen url attempt (S left) st
      = _get_from urlopen url (attempt + 1) left st'
      /\ requests st' = S (requests st).
Proof.
  intros url attempt left st Hat Hr.
  cbn [_get_from]. unfold bind at 1. unfold request at 1.
  destruct (urlopen (requests st) url) as [d|code ra| |]; simpl in Hr;
    try discriminate.
  - destruct (code =? 429)%Z.
    + destruct ra as [|n|]; try discriminate.
      * eexists; split; [reflexivity|reflexivity].
      * apply andb_prop in Hr. destruct Hr as [H0 H1].
        apply Z.leb_le in H0. apply Z.leb_le in H1.
        unfold bind, sleep.
        destruct (Z.ltb_spec n 0); [lia|].
        destruct (Z.ltb_spec 9223372036 n); [lia|].
        eexists; split; reflexivity.
    + rewrite Hr.
      destruct (backoff_can_sleep attempt
                  {| requests := S (requests st); slept := slept st;
                     stdin := stdin st |} Hat) as [st' [Hs Hq]].
      unfold bind. rewrite Hs. exists st'. split; [reflexivity|exact Hq].
  - destruct (backoff_can_sleep attempt
                {| requests := S (requests st); slept := slept st;
                   stdin := stdin st |} Hat) as [st' [Hs Hq]].
    unfold bind. rewrite Hs. exists st'. split; [reflexivity|exact Hq].
Qed.

(** An HTTP error that is neither 429 nor 5xx ends the call at once. *)
Lemma _get_from_client_error :
  forall url attempt left st code ra,
    urlopen (requests st) url = Resp_HTTPError code ra ->
    (code < 500)%Z -> code <> 429%Z ->
    _get_from urlopen url attempt (S left) st
    = (Raise (HTTPError code),
       {| requests := S (requests st); slept := slept st; stdin := stdin st |}).
Proof.
  intros url attempt left st code ra Hu Hlt Hne.
  cbn [_get_from]. unfold bind, request. rewrite Hu.
  destruct (Z.eqb_spec code 429); [contradiction|].
  destruct (Z.leb_spec 500 code); [lia|].
  reflexivity.
Qed.

(** No call sends more requests than it has attempts left. *)
Lemma _get_from_requests :
  forall url left attempt st,
    requests (snd (_get_from urlopen url attempt left st)) <= requests st + left.
Proof.
  intros url left. induction left as [|left IH]; intros attempt st.
  - simpl. lia.
  - cbn [_get_from]. unfold bind at 1. unfold request at 1.
    assert (Hs : forall n,
      requests (snd (bind (sleep n)
                          (fun _ => _get_from urlopen url (attempt + 1) left)
                          {| requests := S (requests st); slept := slept st;
                             stdin := stdin st |}))
      <= requests st + S left).
    { intros n. unfold bind.
      pose proof (sleep_requests n
                    {| requests := S (requests st); slept := slept st;
                       stdin := stdin st |}) as Hq.
      destruct (sleep n _) as [[u|e] st1]; simpl in Hq |- *.
      - specialize (IH (attempt + 1)%Z st1). lia.
      - lia. }
    destruct (urlopen (requests st) url) as [d|code ra| |].
    + simpl. lia.
    + destruct (code =? 429)%Z.
      * destruct ra as [|n|]; [apply Hs|apply Hs|simpl; lia].
      * destruct (500 <=? code)%Z; [apply Hs|simpl; lia].
    + apply Hs.
    + simpl. lia.
Qed.

(** C8. [_get] sends at most [MAX_RETRIES] (3) requests; an HTTP error
    with a 4xx status other than 429, met on an attempt that is reached,
    ends the call on that attempt with that error; and when every attempt
    met a retryable response the call ends with the [RuntimeError] whose
    message names the number of attempts and the URL. *)
Theorem get_retry_policy :
  forall (url : string) (st : State),
    requests (snd (_get urlopen url st)) <= requests st + MAX_RETRIES
    /\ (forall (k : nat) (code : Z) (ra : RetryAfter),
          k < MAX_RETRIES ->
          (forall j, j < k -> retryable (urlopen (requests st + j) url) = true) ->
          urlopen (requests st + k) url = Resp_HTTPError code ra ->
          (400 <= code < 500)%Z -> code <> 429%Z ->
          fst (_get urlopen url st) = Raise (HTTPError code)
          /\ requests (snd (_get urlopen url st)) = requests st + k + 1)
    /\ ((forall j, j < MAX_RETRIES ->
           retryable (urlopen (requests st + j) url) = true) ->
        fst (_get urlopen url st)
        = Raise (RuntimeError ("Failed after 3 attempts: " ++ url))
        /\ requests (snd (_get urlopen url st)) = requests st + MAX_RETRIES).
Proof.
  intros url st. split; [apply _get_from_requests|]. split.
  - intros k code ra Hk Hretry Hu Hcode Hne. unfold _get, MAX_RETRIES in *.
    destruct k as [|[|[|k]]]; try lia.
    + rewrite Nat.add_0_r in Hu.
      rewrite (_get_from_client_error url 1 2 st code ra Hu); [|lia|exact Hne].
      simpl. split; [reflexivity|lia].
    + destruct (_get_from_retry url 1 2 st) as [st1 [E1 Q1]];
        [lia|rewrite <- (Nat.add_0_r (requests st)); apply Hretry; lia|].
      rewrite E1.
      rewrite (_get_from_client_error url (1 + 1) 1 st1 code ra);
        [|rewrite Q1, <- Nat.add_1_r; exact Hu|lia|exact Hne].
      simpl. split; [reflexivity|lia].
    + destruct (_get_from_retry url 1 2 st) as [st1 [E1 Q1]];
        [lia|rewrite <- (Nat.add_0_r (requests st)); apply Hretry; lia|].
      destruct (_get_from_retry url (1 + 1) 1 st1) as [st2 [E2 Q2]];
        [lia|rewrite Q1, <- Nat.add_1_r; apply Hretry; lia|].
      rewrite E1, E2.
      rewrite (_get_from_client_error url (1 + 1 + 1) 0 st2 code ra);
        [|rewrite Q2, Q1; replace (S (S (requests st))) with (requests st + 2) by lia;
          exact Hu|lia|exact Hne].
      simpl. split; [reflexivity|lia].
  - intros Hretry. unfold _get, MAX_RETRIES in *.
    destruct (_get_from_retry url 1 2 st) as [st1 [E1 Q1]];
      [lia|rewrite <- (Nat.add_0_r (requests st)); apply Hretry; lia|].
    destruct (_get_from_retry url (1 + 1) 1 st1) as [st2 [E2 Q2]];
      [lia|rewrite Q1, <- Nat.add_1_r; apply Hretry; lia|].
    destruct (_get_from_retry url (1 + 1 + 1) 0 st2) as [st3 [E3 Q3]];
      [lia|rewrite Q2, Q1;
           replace (S (S (requests st))) with (requests st + 2) by lia;
           apply Hretry; lia|].
    rewrite E1, E2, E3. simpl. split; [reflexivity|lia].
Qed.

(** [search_crossref] always returns a list. *)
Lemma search_crossref_returns :
  forall params rows st,
    exists l st', search_crossref urlopen urlencode params rows st = (Ok l, st').
Proof.
  intros params rows st. unfold search_crossref, try_except, bind.
  destruct (_get urlopen (search_url urlencode params rows) st) as [[d|e] st1].
  - destruct d as [message|]; do 2 eexists; reflexivity.
  - do 2 eexists; reflexivity.
Qed.

(** C10. [search_crossref] never raises: it always returns a list, and the
    empty list whenever [_get] raised.  At [resolve_input], for a descriptor
    that is not a DOI, an empty candidate list gives [(None, "")] whatever
    produced it, a failed search or a search without results. *)
Theorem search_failure_is_no_result :
  forall (params : Params) (rows : nat) (info : QueryDescriptor) (st : State),
    (exists l, fst (search_crossref urlopen urlencode params rows st) = Ok l)
    /\ (forall e,
          fst (_get urlopen (search_url urlencode params rows) st) = Raise e ->
          fst (search_crossref urlopen urlencode params rows st) = Ok [])
    /\ (type info <> Kind.doi ->
        fst (search_crossref urlopen urlencode (build_query info) 3 st) = Ok [] ->
        fst (resolve_input urlopen quote urlencode info st) = Ok (None, "")).
Proof.
  intros params rows info st. split; [|split].
  - destruct (search_crossref_returns params rows st) as [l [st' E]].
    exists l. rewrite E. reflexivity.
  - intros e He. unfold search_crossref, try_except, bind.
    destruct (_get urlopen (search_url urlencode params rows) st) as [[d|e'] st1];
      simpl in He; [discriminate|reflexivity].
  - intros Hk Hs. unfold resolve_input.
    assert (E : forall A (k : list Msg -> M A) r,
               (forall st', fst (k [] st') = r) ->
               fst (bind (search_crossref urlopen urlencode (build_query info) 3) k st) = r).
    { intros A k r Hkr. unfold bind.
      destruct (search_crossref urlopen urlencode (build_query info) 3 st)
        as [[l|e] st1]; simpl in Hs; [|discriminate].
      inversion Hs; subst. apply Hkr. }
    destruct (type info); try contradiction; apply E; reflexivity.
Qed.

End ClientFacts.

Lemma get_retry_policy_witness :
  (fst (_get down_then_404 "u" (start [])) = Raise (HTTPError 404)
   /\ requests (snd (_get down_then_404 "u" (start []))) = 2)
  /\ (fst (_get always_down "u" (start []))
      = Raise (RuntimeError "Failed after 3 attempts: u")
      /\ requests (snd (_get always_down "u" (start []))) = 3).
Proof.
  split.
  - apply (proj1 (proj2 (get_retry_policy down_then_404 "u" (start [])))
             1 404%Z RA_absent).
    + unfold MAX_RETRIES; lia.
    + intros j Hj. assert (j = 0) by lia. subst j. reflexivity.
    + reflexivity.
    + lia.
    + discriminate.
  - apply (proj2 (proj2 (get_retry_policy always_down "u" (start [])))).
    intros j Hj. reflexivity.
Defined.

Lemma search_failure_is_no_result_witness :
  fst (search_crossref always_down plain_urlencode
         (build_query deep_learning_query) 3 (start [])) = Ok []
  /\ fst (resolve_input always_down plain_quote plain_urlencode
            deep_learning_query (start [])) = Ok (None, "").
Proof.
  pose proof (search_failure_is_no_result always_down plain_quote plain_urlencode
                (build_query deep_learning_query) 3 deep_learning_query (start []))
    as [_ [Hfail Hres]].
  assert (Hs : fst (search_crossref always_down plain_urlencode
                      (build_query deep_learning_query) 3 (start [])) = Ok []).
  { apply (Hfail (RuntimeError
       "Failed after 3 attempts: https://api.crossref.org/works?query.title=Deep learning")).
    vm_compute. reflexivity. }
  split; [exact Hs|].
  apply Hres; [discriminate|exact Hs].
Defined.

(* ===================================================================== *)
(** ** Ordinals *)
(* ===================================================================== *)

Section LoopFacts.

Variable urlopen : nat -> string -> Response.
Variable quote : string -> string.
Variable urlencode : SearchParams -> string.
Variable formatter : Msg -> string -> Z -> string.



End LoopFacts.

(** C6. In the app an ambiguous line takes its ordinal when its
    placeholder is stored, before the user decides; when the user then
    skips it the ordinal stays used.  On the lines "Deep learning" (two
    candidates, skipped) and "10.1038/nature14539" the reference list of the
    app holds the single entry numbered 2, while the loop of [main], on the
    same lines and the same answer "s", numbers it 1. *)
Theorem app_skip_leaves_gap :
  fst (app_run two_then_record plain_quote plain_urlencode fmt_plain
         no_cache no_cache two_lines [SkipEntry] (start []))
  = Ok (Some
       [ ("2. LeCun et al.. Nature. 2015. https://doi.org/10.1038/nature14539.",
          get_authors lecun_record) ])
  /\ fst (main_entries two_then_record plain_quote plain_urlencode fmt_plain
            two_lines (start ["s"]))
     = Ok [ ("1. LeCun et al.. Nature. 2015. https://doi.org/10.1038/nature14539.",
             get_authors lecun_record) ].
Proof. split; vm_compute; reflexivity. Qed.

(* ===================================================================== *)
(** ** Facts about the string primitives *)
(* ===================================================================== *)

Import Props Styles Markup Targets Input.

Lemma append_nil_r : forall s : string, s ++ "" = s.
Proof. induction s as [|c s IH]; simpl; [reflexivity|rewrite IH; reflexivity]. Qed.

Lemma append_assoc : forall a b c : string, (a ++ b) ++ c = a ++ (b ++ c).
Proof.
  induction a as [|x a IH]; intros; simpl; [reflexivity|rewrite IH; reflexivity].
Qed.

Lemma length_append : forall a b : string,
  String.length (a ++ b) = String.length a + String.length b.
Proof.
  induction a as [|x a IH]; intros; simpl; [reflexivity|rewrite IH; reflexivity].
Qed.

Lemma append_same_length_inv : forall a b c d : string,
  a ++ b = c ++ d -> String.length a = String.length c -> a = c /\ b = d.
Proof.
  induction a as [|x a IH]; intros b c d H L; destruct c as [|y c];
    simpl in *; try discriminate.
  - split; [reflexivity|exact H].
  - inversion H; subst. injection L as L.
    destruct (IH _ _ _ H2 L) as [-> ->]. split; reflexivity.
Qed.

Lemma lower_append : forall a b, lower (a ++ b) = lower a ++ lower b.
Proof.
  induction a as [|x a IH]; intros; simpl; [reflexivity|rewrite IH; reflexivity].
Qed.

Lemma length_lower : forall s, String.length (lower s) = String.length s.
Proof. induction s as [|c s IH]; simpl; [reflexivity|rewrite IH; reflexivity]. Qed.

Lemma all_chars_append : forall p a b,
  all_chars p (a ++ b) = all_chars p a && all_chars p b.
Proof.
  induction a as [|x a IH]; intros; simpl; [reflexivity|].
  rewrite IH, andb_assoc. reflexivity.
Qed.

Lemma substring_all : forall s r,
  substring 0 (String.length (s ++ r) - String.length r) (s ++ r) = s.
Proof.
  intros s r. rewrite length_append, Nat.add_sub.
  induction s as [|c s IH]; simpl.
  - destruct r; reflexivity.
  - rewrite IH. reflexivity.
Qed.

Lemma prefix_refl : forall s, prefix s s = true.
Proof.
  induction s as [|c s IH]; simpl; [reflexivity|].
  destruct (ascii_dec c c); [exact IH|contradiction].
Qed.

Lemma prefix_empty : forall s, prefix "" s = true.
Proof. destruct s; reflexivity. Qed.

(** *** Stripping *)

Lemma lstrip_by_head : forall p s c r,
  lstrip_by p s = String c r -> p c = false.
Proof.
  induction s as [|x s IH]; intros c r H; simpl in H; [discriminate|].
  destruct (p x) eqn:E.
  - eapply IH; eassumption.
  - inversion H; subst. exact E.
Qed.

Lemma rstrip_by_keeps_head : forall p c r,
  p c = false -> exists r', rstrip_by p (String c r) = String c r'.
Proof.
  intros p c r H. simpl. destruct (rstrip_by p r).
  - rewrite H. eexists; reflexivity.
  - eexists; reflexivity.
Qed.

Lemma rstrip_by_idem : forall p s,
  rstrip_by p (rstrip_by p s) = rstrip_by p s.
Proof.
  induction s as [|c s IH]; [reflexivity|].
  simpl. destruct (rstrip_by p s) as [|d r'] eqn:E.
  - destruct (p c) eqn:Ec; [reflexivity|]. simpl. rewrite Ec. reflexivity.
  - change (rstrip_by p (String c (String d r')))
      with (match rstrip_by p (String d r') with
            | "" => if p c then "" else String c ""
            | String a r0 => String c (String a r0)
            end).
    rewrite IH. reflexivity.
Qed.

Lemma rstrip_by_last : forall p s a c,
  rstrip_by p s = a ++ String c "" -> p c = false.
Proof.
  induction s as [|x s IH]; intros a c H.
  - destruct a; discriminate.
  - simpl in H. destruct (rstrip_by p s) as [|d r'] eqn:E.
    + destruct (p x) eqn:Ex.
      * destruct a; discriminate.
      * destruct a as [|y a]; simpl in H.
        -- inversion H; subst. exact Ex.
        -- inversion H. destruct a; discriminate.
    + destruct a as [|y a]; simpl in H.
      * inversion H.
      * inversion H; subst. eapply IH. eassumption.
Qed.

Lemma strip_by_idem : forall p s, strip_by p (strip_by p s) = strip_by p s.
Proof.
  intros p s. unfold strip_by.
  destruct (lstrip_by p s) as [|c r] eqn:E; [reflexivity|].
  pose proof (lstrip_by_head p s c r E) as Hc.
  destruct (rstrip_by_keeps_head p c r Hc) as [r' Hr].
  rewrite Hr. simpl lstrip_by. rewrite Hc. rewrite <- Hr.
  apply rstrip_by_idem.
Qed.

Lemma strip_idem : forall s, strip (strip s) = strip s.
Proof. intros; apply strip_by_idem. Qed.

Lemma rstrip_by_none : forall p s,
  all_chars (fun c => negb (p c)) s = true -> rstrip_by p s = s.
Proof.
  induction s as [|c s IH]; intros H; [reflexivity|].
  simpl in H. apply andb_prop in H. destruct H as [Hc Hs].
  simpl. rewrite (IH Hs). destruct s.
  - apply negb_true_iff in Hc. rewrite Hc. reflexivity.
  - reflexivity.
Qed.

Lemma strip_by_none : forall p s,
  all_chars (fun c => negb (p c)) s = true -> strip_by p s = s.
Proof.
  intros p s H. unfold strip_by.
  assert (E : lstrip_by p s = s).
  { destruct s as [|c s]; [reflexivity|]. simpl in H.
    apply andb_prop in H. destruct H as [Hc _].
    apply negb_true_iff in Hc. simpl. rewrite Hc. reflexivity. }
  rewrite E. apply rstrip_by_none. exact H.
Qed.

Lemma strip_by_last : forall p s a c,
  strip_by p s = a ++ String c "" -> p c = false.
Proof. intros p s a c H. unfold strip_by in H. eapply rstrip_by_last; eassumption. Qed.

(* ===================================================================== *)
(** ** More about classification *)
(* ===================================================================== *)

(** *** What the matchers consume *)

Lemma strip_prefix_ci_consumes : forall p s r,
  strip_prefix_ci p s = Some r ->
  exists u, s = u ++ r /\ lower u = lower p.
Proof.
  induction p as [|a p IH]; intros s r H.
  - simpl in H. inversion H; subst. exists "". split; reflexivity.
  - destruct s as [|b s]; simpl in H; [discriminate|].
    destruct (Ascii.eqb_spec (lower_char a) (lower_char b)) as [E|]; [|discriminate].
    destruct (IH _ _ H) as [u [-> Hu]].
    exists (String b u). simpl. rewrite Hu, E. split; reflexivity.
Qed.

Lemma consumes_lit_ci : forall p,
  consumes (fun u => lower u = lower p) (lit_ci p).
Proof.
  intros p s r H. unfold lit_ci in H.
  destruct (strip_prefix_ci p s) as [r'|] eqn:E; [|contradiction].
  destruct H as [<-|[]]. eapply strip_prefix_ci_consumes; eassumption.
Qed.

Lemma consumes_seq : forall P1 P2 m1 m2,
  consumes P1 m1 -> consumes P2 m2 ->
  consumes (fun u => exists u1 u2, u = u1 ++ u2 /\ P1 u1 /\ P2 u2) (seq m1 m2).
Proof.
  intros P1 P2 m1 m2 H1 H2 s r H. unfold seq in H.
  apply in_flat_map in H. destruct H as [mid [Hm Hr]].
  destruct (H1 _ _ Hm) as [u1 [-> Hu1]].
  destruct (H2 _ _ Hr) as [u2 [-> Hu2]].
  exists (u1 ++ u2). rewrite append_assoc. split; [reflexivity|].
  exists u1, u2. auto.
Qed.

Lemma consumes_opt : forall P m,
  consumes P m -> consumes (fun u => u = "" \/ P u) (opt m).
Proof.
  intros P m Hm s r H. unfold opt in H. apply in_app_or in H.
  destruct H as [H|[<-|[]]].
  - destruct (Hm _ _ H) as [u [-> Hu]]. exists u. auto.
  - exists "". auto.
Qed.

Lemma consumes_cls : forall p,
  consumes (fun u => exists c, u = String c "" /\ p c = true) (cls p).
Proof.
  intros p s r H. unfold cls in H. destruct s as [|c s]; [contradiction|].
  destruct (p c) eqn:E; [|contradiction]. destruct H as [<-|[]].
  exists (String c ""). split; [reflexivity|]. exists c. auto.
Qed.

Lemma consumes_weaken : forall (P Q : string -> Prop) m,
  (forall u, P u -> Q u) -> consumes P m -> consumes Q m.
Proof.
  intros P Q m HPQ Hm s r H. destruct (Hm _ _ H) as [u [-> Hu]].
  exists u. auto.
Qed.

Lemma consumes_rep_upto : forall p n,
  consumes (fun u => all_chars p u = true) (rep_upto p n).
Proof.
  intros p n. induction n as [|n IH]; simpl.
  - intros s r [<-|[]]. exists "". auto.
  - eapply consumes_weaken;
      [|apply consumes_opt; apply consumes_seq; [apply consumes_cls|exact IH]].
    intros u [->|[u1 [u2 [-> [[c [-> Hc]] Hu2]]]]]; [reflexivity|].
    simpl. rewrite Hc, Hu2. reflexivity.
Qed.

Lemma consumes_rep : forall p lo extra,
  consumes (fun u => all_chars p u = true) (rep p lo extra).
Proof.
  intros p lo extra. induction lo as [|lo IH]; simpl.
  - apply consumes_rep_upto.
  - eapply consumes_weaken;
      [|apply consumes_seq; [apply consumes_cls|exact IH]].
    intros u [u1 [u2 [-> [[c [-> Hc]] Hu2]]]].
    simpl. rewrite Hc, Hu2. reflexivity.
Qed.

Lemma consumes_plus : forall p,
  consumes (fun u => all_chars p u = true) (plus p).
Proof.
  intros p s. unfold plus. induction s as [|c s IH]; intros r H; simpl in H.
  - contradiction.
  - destruct (p c) eqn:E; [|contradiction].
    apply in_app_or in H. destruct H as [H|[<-|[]]].
    + destruct (IH _ H) as [u [-> Hu]]. exists (String c u).
      simpl. rewrite E, Hu. auto.
    + exists (String c ""). simpl. rewrite E. auto.
Qed.

Lemma eos_end : forall s r,
  In r (eos s) -> r = s /\ (s = "" \/ s = String newline "").
Proof.
  intros s r H. unfold eos in H.
  destruct (String.eqb_spec s "") as [->|].
  - destruct H as [<-|[]]. auto.
  - destruct (String.eqb_spec s (String "010"%char "")) as [->|].
    + destruct H as [<-|[]]. auto.
    + simpl in H. contradiction.
Qed.

(** Lowering maps no other character onto a digit, a dot or a slash. *)
Lemma lower_char_plain : forall c d,
  lower_char c = d ->
  (is_digit d || Ascii.eqb d "."%char || Ascii.eqb d "/"%char) = true ->
  c = d.
Proof.
  intros c d <-.
  destruct c as [[] [] [] [] [] [] [] []]; vm_compute;
    intros H; try reflexivity; discriminate H.
Qed.

Lemma lower_is_doi_head : forall u,
  lower u = "10." -> u = "10.".
Proof.
  intros u H.
  destruct u as [|c1 [|c2 [|c3 [|c4 u]]]]; simpl in H; try discriminate.
  inversion H as [[H1 H2 H3]].
  rewrite (lower_char_plain c1 _ H1 eq_refl),
          (lower_char_plain c2 _ H2 eq_refl),
          (lower_char_plain c3 _ H3 eq_refl).
  reflexivity.
Qed.

Lemma lower_is_slash : forall u, lower u = "/" -> u = "/".
Proof.
  intros u H. destruct u as [|c1 [|c2 u]]; simpl in H; try discriminate.
  inversion H as [H1]. rewrite (lower_char_plain c1 _ H1 eq_refl). reflexivity.
Qed.

Lemma digits_are_not_space : forall u,
  all_chars is_digit u = true -> all_chars non_space u = true.
Proof.
  induction u as [|c u IH]; simpl; intros H; [reflexivity|].
  apply andb_prop in H. destruct H as [Hc Hu]. rewrite (IH Hu), andb_true_r.
  destruct c as [[] [] [] [] [] [] [] []]; vm_compute in Hc |- *;
    try reflexivity; discriminate Hc.
Qed.

Lemma prefix_doi_head : forall x, prefix "10." ("10." ++ x) = true.
Proof.
  intros x. simpl.
  repeat match goal with
         | |- context [ascii_dec ?a ?b] => destruct (ascii_dec a b); [|congruence]
         end.
  apply prefix_empty.
Qed.

(** Group 2 of [DOI_RE]: "10.", digits, a slash and characters that are
    not whitespace, up to the end or to a final newline. *)
Lemma DOI_RE_group2_shape : forall s r,
  In r (DOI_RE_group2 s) ->
  exists body,
    s = body ++ r /\ prefix "10." body = true
    /\ all_chars non_space body = true
    /\ (r = "" \/ r = String newline "").
Proof.
  intros s r H. unfold DOI_RE_group2 in H.
  pose proof (consumes_seq _ _ _ _ (consumes_lit_ci "10.")
    (consumes_seq _ _ _ _ (consumes_rep is_digit 4 5)
      (consumes_seq _ _ _ _ (consumes_lit_ci "/")
        (consumes_plus non_space)))) as Hc.
  unfold seq at 1 2 3 in H.
  assert (H' : exists mid,
    In mid (seq (lit_ci "10.") (seq (rep is_digit 4 5)
             (seq (lit_ci "/") (plus non_space))) s)
    /\ In r (eos mid)).
  { unfold seq. apply in_flat_map in H. destruct H as [m1 [H1 H]].
    apply in_flat_map in H. destruct H as [m2 [H2 H]].
    apply in_flat_map in H. destruct H as [m3 [H3 H]].
    apply in_flat_map in H. destruct H as [m4 [H4 H]].
    exists m4. split; [|exact H].
    apply in_flat_map. exists m1. split; [exact H1|].
    apply in_flat_map. exists m2. split; [exact H2|].
    apply in_flat_map. exists m3. split; [exact H3|exact H4]. }
  destruct H' as [mid [Hmid Hend]].
  apply eos_end in Hend. destruct Hend as [-> Hend].
  destruct (Hc _ _ Hmid)
    as (u & -> & u1 & u2 & -> & Hu1 & u3 & u4 & -> & Hu3 & u5 & u6 & -> & Hu5 & Hu6).
  apply lower_is_doi_head in Hu1. apply lower_is_slash in Hu5. subst u1 u5.
  exists ("10." ++ u3 ++ "/" ++ u6). split; [reflexivity|].
  split; [apply prefix_doi_head|]. split; [|exact Hend].
  change ("10." ++ u3 ++ "/" ++ u6) with (String "1" (String "0" (String "." (u3 ++ "/" ++ u6)))).
  cbn [all_chars]. rewrite all_chars_append. cbn [append all_chars].
  rewrite (digits_are_not_space _ Hu3), Hu6. reflexivity.
Qed.

(** Group 1 of [DOI_RE]: nothing, or a resolver prefix in any letter
    case. *)
Lemma DOI_RE_group1_shape : forall s r,
  In r (DOI_RE_group1 s) ->
  exists p, s = p ++ r /\ (p = "" \/ In (lower p) resolver_prefixes).
Proof.
  intros s r H. unfold DOI_RE_group1 in H.
  pose proof (consumes_opt _ _
    (consumes_seq _ _ _ _ (consumes_lit_ci "http")
      (consumes_seq _ _ _ _ (consumes_opt _ _ (consumes_lit_ci "s"))
        (consumes_seq _ _ _ _ (consumes_lit_ci "://")
          (consumes_seq _ _ _ _ (consumes_opt _ _ (consumes_lit_ci "dx."))
            (consumes_lit_ci "doi.org/")))))) as Hc.
  destruct (Hc _ _ H) as [p [-> Hp]]. exists p. split; [reflexivity|].
  destruct Hp
    as [->|(u1 & u2 & -> & H1 & u3 & u4 & -> & H3 & u5 & u6 & -> & H5 & u7 & u8 & -> & H7 & H8)];
    [left; reflexivity|right].
  rewrite !lower_append, H1, H5, H8.
  destruct H3 as [->|H3]; destruct H7 as [->|H7];
    try rewrite H3; try rewrite H7; simpl; tauto.
Qed.

Lemma DOI_RE_first_shape : forall starts d,
  DOI_RE_first starts = Some d ->
  exists s r, In s starts /\ s = d ++ r
    /\ prefix "10." d = true /\ all_chars non_space d = true
    /\ (r = "" \/ r = String newline "").
Proof.
  induction starts as [|s more IH]; intros d H; simpl in H; [discriminate|].
  destruct (DOI_RE_group2 s) as [|r rs] eqn:E.
  - destruct (IH _ H) as [s' [r' [Hin Hrest]]].
    exists s', r'. split; [right; exact Hin|exact Hrest].
  - assert (Hin : In r (DOI_RE_group2 s)) by (rewrite E; left; reflexivity).
    destruct (DOI_RE_group2_shape _ _ Hin) as [body [-> [Hp [Hns Hr]]]].
    rewrite substring_all in H. inversion H; subst.
    exists (d ++ r), r. split; [left; reflexivity|]. auto.
Qed.

(** What [DOI_RE.match] captures, on a line without whitespace at its
    ends. *)
Lemma DOI_RE_match_shape : forall line d,
  DOI_RE_match (strip line) = Some d ->
  exists p, strip line = p ++ d
    /\ (p = "" \/ In (lower p) resolver_prefixes)
    /\ prefix "10." d = true /\ all_chars non_space d = true.
Proof.
  intros line d H. unfold DOI_RE_match in H.
  destruct (DOI_RE_first_shape _ _ H) as [s [r [Hin [-> [Hp [Hns Hr]]]]]].
  destruct (DOI_RE_group1_shape _ _ Hin) as [p [E Hpre]].
  destruct Hr as [ -> | -> ].
  - rewrite append_nil_r in E. exists p. auto.
  - exfalso. rewrite <- append_assoc in E.
    unfold strip in E. apply strip_by_last in E. vm_compute in E. discriminate.
Qed.

(** *** The captured DOI *)

Lemma detect_doi_is_match : forall line r d,
  detect_input_type line = Ok r -> doi r = Some d ->
  DOI_RE_match (strip line) = Some d.
Proof.
  intros line r d H Hd. unfold detect_input_type in H.
  destruct (DOI_RE_match (strip line)) as [g2|].
  - inversion H; subst. simpl in Hd. exact Hd.
  - exfalso.
    destruct (fold_left year_step (map strip (split_on "|" (strip line))) (None, []))
      as [yr clean_parts].
    destruct clean_parts as [|a [|b [|c [|x rest]]]];
      try discriminate;
      repeat match type of H with
             | context [if ?b then _ else _] => destruct b
             end;
      inversion H; subst; simpl in Hd; discriminate.
Qed.



Lemma prefix_doi_head_inv : forall d,
  prefix "10." d = true -> exists d', d = "10." ++ d'.
Proof.
  intros d H. destruct d as [|c1 [|c2 [|c3 d']]]; cbn [prefix] in H;
    repeat match type of H with
           | context [ascii_dec ?a ?b] =>
               destruct (ascii_dec a b); [subst; cbn [prefix] in H|discriminate]
           end; try discriminate.
  exists d'. reflexivity.
Qed.

(** The identifier that [fetch_by_doi] works with, for a DOI without
    whitespace that starts with "10.". *)
Lemma raw_of_plain_doi : forall d,
  prefix "10." d = true -> all_chars non_space d = true ->
  lstrip_chars "http://dx.doi.org/" (lstrip_chars "https://doi.org/" (strip d)) = d.
Proof.
  intros d Hp Hns. unfold strip. rewrite (strip_by_none is_space d Hns).
  destruct (prefix_doi_head_inv d Hp) as [d' ->]. reflexivity.
Qed.

Section FetchFacts.

Variable urlopen : nat -> string -> Response.
Variable quote : string -> string.
Variable urlencode : SearchParams -> string.

(** [fetch_by_doi] never raises, and the identifier it returns depends on
    its argument only. *)
Lemma fetch_by_doi_returns : forall doi st,
  exists m st',
    fetch_by_doi urlopen quote doi st
    = (Ok (m, lstrip_chars "http://dx.doi.org/"
                (lstrip_chars "https://doi.org/" (strip doi))), st').
Proof.
  intros doi st. unfold fetch_by_doi, try_except, bind.
  destruct (_get urlopen _ st) as [[data|e] st1].
  - destruct data as [message|]; do 2 eexists; reflexivity.
  - do 2 eexists; reflexivity.
Qed.

(** The canonical identifier of a line classified as a DOI is the DOI that
    was captured: [fetch_by_doi] returns it unchanged, with or without a
    record, whatever the service does. *)
Theorem classified_doi_is_canonical :
  forall (line : string) (r : QueryDescriptor) (d : string) (st : State),
    detect_input_type line = Ok r -> doi r = Some d ->
    exists m, fst (fetch_by_doi urlopen quote d st) = Ok (m, d).
Proof.
  intros line r d st H Hd.
  destruct (DOI_RE_match_shape line d (detect_doi_is_match line r d H Hd))
    as (p & _ & _ & Hp & Hns).
  destruct (fetch_by_doi_returns d st) as [m [st' E]].
  exists m. rewrite E. simpl. rewrite (raw_of_plain_doi d Hp Hns). reflexivity.
Qed.

End FetchFacts.

Lemma classified_doi_is_canonical_witness :
  exists m,
    fst (fetch_by_doi two_then_record plain_quote "10.1038/nature14539" (start []))
    = Ok (m, "10.1038/nature14539").
Proof.
  apply (classified_doi_is_canonical two_then_record plain_quote
           "https://doi.org/10.1038/nature14539"
           {| type := Kind.doi; doi := Some "10.1038/nature14539";
              title := None; author := None; journal := None; year := None;
              raw := "https://doi.org/10.1038/nature14539" |});
    vm_compute; reflexivity.
Defined.

(** *** Resolver URLs *)

Lemma DOI_RE_first_head : forall d g more,
  DOI_RE_first [d] = Some g -> DOI_RE_first (d :: more) = Some g.
Proof.
  intros d g more H. simpl in *. destruct (DOI_RE_group2 d); [discriminate|exact H].
Qed.

Lemma DOI_RE_match_bare : forall d,
  DOI_RE_match d = Some d ->
  prefix "10." d = true /\ all_chars non_space d = true
  /\ DOI_RE_first [d] = Some d.
Proof.
  intros d H. unfold DOI_RE_match in H.
  destruct (DOI_RE_first_shape _ _ H) as (s & r & Hin & -> & Hp & Hns & _).
  destruct (DOI_RE_group1_shape _ _ Hin) as (p & E & _).
  assert (L : String.length d = String.length (p ++ d ++ r)) by (rewrite <- E; reflexivity).
  rewrite !length_append in L.
  assert (p = "") by (destruct p; [reflexivity|simpl in L; lia]).
  subst p. split; [exact Hp|]. split; [exact Hns|].
  destruct (prefix_doi_head_inv d Hp) as [d' ->].
  exact H.
Qed.

(** A bare DOI behind a resolver URL is classified as that DOI: for a
    string [d] that [DOI_RE] captures whole, each of the four resolver
    prefixes followed by [d] gives the descriptor of kind [doi] with
    [doi = d]. *)
Theorem resolver_url_gives_bare_doi :
  forall (d p : string),
    In p resolver_prefixes ->
    DOI_RE_match d = Some d ->
    detect_input_type (p ++ d)
    = Ok {| type := Kind.doi; doi := Some d; title := None; author := None;
            journal := None; year := None; raw := p ++ d |}.
Proof.
  intros d p Hp Hd.
  destruct (DOI_RE_match_bare d Hd) as (H10 & Hns & Hfirst).
  assert (Hstrip : strip (p ++ d) = p ++ d).
  { unfold strip. apply strip_by_none. rewrite all_chars_append.
    change (all_chars (fun c => negb (is_space c)) d) with (all_chars non_space d).
    rewrite Hns, andb_true_r.
    unfold resolver_prefixes in Hp. simpl in Hp.
    destruct Hp as [<-|[<-|[<-|[<-|[]]]]]; vm_compute; reflexivity. }
  unfold detect_input_type. rewrite Hstrip.
  assert (Hm : DOI_RE_match (p ++ d) = Some d).
  { unfold DOI_RE_match.
    assert (G : DOI_RE_group1 (p ++ d) = [d; p ++ d]).
    { unfold resolver_prefixes in Hp. simpl in Hp.
      destruct Hp as [<-|[<-|[<-|[<-|[]]]]]; vm_compute; reflexivity. }
    rewrite G. apply DOI_RE_first_head. exact Hfirst. }
  rewrite Hm. reflexivity.
Qed.

Lemma resolver_url_gives_bare_doi_witness :
  detect_input_type ("http://dx.doi.org/" ++ "10.1038/nature12345")
  = Ok {| type := Kind.doi; doi := Some "10.1038/nature12345"; title := None;
          author := None; journal := None; year := None;
          raw := "http://dx.doi.org/" ++ "10.1038/nature12345" |}.
Proof.
  apply (resolver_url_gives_bare_doi "10.1038/nature12345" "http://dx.doi.org/").
  - unfold resolver_prefixes; simpl; tauto.
  - vm_compute; reflexivity.
Defined.

(** *** The year and the parts *)

Lemma year_at_token : forall prev s,
  year_at prev s = true -> is_year_token (substring 0 4 s) = true.
Proof.
  intros prev s H. unfold year_at in H.
  destruct s as [|c1 [|c2 [|c3 [|c4 r]]]]; try discriminate.
  apply andb_prop in H. destruct H as [H _].
  apply andb_prop in H. destruct H as [H H4].
  apply andb_prop in H. destruct H as [H H3].
  apply andb_prop in H. destruct H as [_ H12].
  assert (E : substring 0 4 (String c1 (String c2 (String c3 (String c4 r))))
              = String c1 (String c2 (String c3 (String c4 "")))).
  { simpl. destruct r; reflexivity. }
  rewrite E. unfold is_year_token. rewrite H12, H3, H4. reflexivity.
Qed.

Lemma YEAR_RE_search_token : forall s prev y,
  YEAR_RE_search_from prev s = Some y -> is_year_token y = true.
Proof.
  induction s as [|c s IH]; intros prev y H.
  - simpl in H. destruct (year_at prev ""); discriminate.
  - cbn [YEAR_RE_search_from] in H.
    destruct (year_at prev (String c s)) eqn:E.
    + injection H as <-. exact (year_at_token prev (String c s) E).
    + eapply IH; eassumption.
Qed.

Lemma year_step_ok : forall st p, parts_ok st -> parts_ok (year_step st p).
Proof.
  intros [yr clean] p [Hy Hc]. simpl in Hy, Hc. unfold year_step.
  assert (Happ : forall x, truthy x = true ->
            Forall (fun q => truthy q = true) (clean ++ [x])%list).
  { intros x Hx. apply Forall_app. split; [exact Hc|]. constructor; [exact Hx|constructor]. }
  destruct (YEAR_RE_search p) as [y|] eqn:E.
  - assert (Ht : is_year_token y = true)
      by (eapply YEAR_RE_search_token; exact E).
    destruct (String.length (strip p) <=? 6)%nat.
    + split; simpl; [intros y' H; inversion H; subst; exact Ht|exact Hc].
    + split; simpl; [intros y' H; inversion H; subst; exact Ht|].
      destruct (truthy (strip_chars " ," (YEAR_RE_sub p))) eqn:T;
        [apply Happ; exact T|exact Hc].
  - split; simpl; [exact Hy|].
    destruct (truthy p) eqn:T; [apply Happ; exact T|exact Hc].
Qed.

Lemma year_fold_ok : forall parts st,
  parts_ok st -> parts_ok (fold_left year_step parts st).
Proof.
  induction parts as [|p parts IH]; intros st H; simpl; [exact H|].
  apply IH. apply year_step_ok. exact H.
Qed.

Lemma year_fold_start_ok : forall parts,
  parts_ok (fold_left year_step parts (None, [])).
Proof.
  intros. apply year_fold_ok. split; simpl; [discriminate|constructor].
Qed.



(** A classified line that is not a DOI always gives a query with a field:
    its first clean part, which is not empty, is the title or the author,
    so [build_query] never falls back on the free-text query of the raw
    line. *)
Theorem classified_query_has_a_field :
  forall (line : string) (r : QueryDescriptor),
    detect_input_type line = Ok r -> type r <> Kind.doi ->
    (exists s, (title r = Some s \/ author r = Some s) /\ truthy s = true)
    /\ query_bibliographic (build_query r) = None.
Proof.
  intros line r H Hk.
  assert (Hfield : exists s, (title r = Some s \/ author r = Some s) /\ truthy s = true).
  { unfold detect_input_type in H.
    destruct (DOI_RE_match (strip line)) as [g2|].
    - inversion H; subst. simpl in Hk. contradiction.
    - pose proof (year_fold_start_ok (map strip (split_on "|" (strip line)))) as [_ Hc].
      destruct (fold_left year_step (map strip (split_on "|" (strip line))) (None, []))
        as [yr clean_parts].
      simpl in Hc.
      destruct clean_parts as [|a rest]; [discriminate|].
      inversion Hc as [|? ? Ha _]; subst.
      destruct rest as [|b [|c [|x rest]]];
        repeat match type of H with
               | context [if ?b then _ else _] => destruct b
               end;
        inversion H; subst; simpl; exists a; auto. }
  split; [exact Hfield|].
  destruct Hfield as [s [[Hs|Hs] Ht]]; unfold build_query; simpl; rewrite Hs;
    simpl; rewrite Ht; simpl.
  - reflexivity.
  - rewrite orb_true_r. reflexivity.
Qed.

Lemma classified_query_has_a_field_witness :
  query_bibliographic
    (build_query
       {| type := Kind.author_journal_year; doi := None; title := None;
          author := Some "Hinton"; journal := Some "Nature";
          year := Some "2006"; raw := "Hinton | Nature | 2006" |}) = None.
Proof.
  apply (classified_query_has_a_field "Hinton | Nature | 2006").
  - vm_compute; reflexivity.
  - discriminate.
Defined.

(** Classification looks at the trimmed line only: but for [raw], a line
    and the same line without the whitespace at its ends give the same
    result. *)
Theorem classification_ignores_outer_whitespace :
  forall line : string,
    map_result forget_raw (detect_input_type (strip line))
    = map_result forget_raw (detect_input_type line).
Proof.
  intros line. unfold detect_input_type. rewrite strip_idem.
  destruct (DOI_RE_match (strip line)) as [g2|]; [reflexivity|].
  destruct (fold_left year_step (map strip (split_on "|" (strip line))) (None, []))
    as [yr clean_parts].
  destruct clean_parts as [|a [|b [|c [|x rest]]]]; try reflexivity;
    repeat match goal with
           | |- context [if ?b then _ else _] => destruct b
           end; reflexivity.
Qed.

(* ===================================================================== *)
(** ** More about the metadata client *)
(* ===================================================================== *)

Section MoreClientFacts.

Variable urlopen : nat -> string -> Response.
Variable quote : string -> string.
Variable urlencode : SearchParams -> string.

Lemma sleep_cases : forall n st,
  (exists e, sleep n st = (Raise e, st))
  \/ (sleep n st = (Ok tt, {| requests := requests st; slept := n :: slept st;
                              stdin := stdin st |})
      /\ (0 <= n <= 9223372036)%Z).
Proof.
  intros n st. unfold sleep.
  destruct (Z.ltb_spec n 0); [left; eexists; reflexivity|].
  destruct (Z.ltb_spec 9223372036 n); [left; eexists; reflexivity|].
  right. split; [reflexivity|lia].
Qed.

(** When [_get_from] returns data, the data is the body of the response
    to one of its requests, every response before it was retryable, and
    that request was the last one. *)
Lemma _get_from_ok : forall url left attempt st d st',
  _get_from urlopen url attempt left st = (Ok d, st') ->
  exists k,
    k < left
    /\ urlopen (requests st + k) url = Resp_ok d
    /\ requests st' = requests st + k + 1
    /\ (forall j, j < k -> retryable (urlopen (requests st + j) url) = true).
Proof.
  intros url left. induction left as [|left IH]; intros attempt st d st' H.
  - simpl in H. discriminate.
  - cbn [_get_from] in H. unfold bind at 1, request at 1 in H.
    assert (Step : forall n,
      ((0 <= n <= 9223372036)%Z -> retryable (urlopen (requests st) url) = true) ->
      bind (sleep n) (fun _ => _get_from urlopen url (attempt + 1) left)
           {| requests := S (requests st); slept := slept st; stdin := stdin st |}
      = (Ok d, st') ->
      exists k, k < S left
        /\ urlopen (requests st + k) url = Resp_ok d
        /\ requests st' = requests st + k + 1
        /\ (forall j, j < k -> retryable (urlopen (requests st + j) url) = true)).
    { intros n Hret Hb. unfold bind in Hb.
      destruct (sleep_cases n {| requests := S (requests st); slept := slept st;
                                 stdin := stdin st |}) as [[e Es]|[Es Hn]];
        rewrite Es in Hb; [discriminate|].
      apply IH in Hb. simpl in Hb. destruct Hb as (k & Hk & Hu & Hq & Hj).
      exists (S k). split; [lia|].
      split; [replace (requests st + S k) with (S (requests st) + k) by lia; exact Hu|].
      split; [lia|].
      intros j Hjk. destruct j as [|j].
      - rewrite Nat.add_0_r. apply Hret. exact Hn.
      - replace (requests st + S j) with (S (requests st) + j) by lia.
        apply Hj. lia. }
    destruct (urlopen (requests st) url) as [d0|code ra| |] eqn:E.
    + inversion H; subst. exists 0. rewrite Nat.add_0_r. simpl.
      split; [lia|]. split; [exact E|]. split; [lia|]. intros j Hj. lia.
    + destruct (code =? 429)%Z eqn:E429.
      * destruct ra as [|n|].
        -- apply (Step 60%Z); [intros _; simpl; rewrite E429; reflexivity|exact H].
        -- apply (Step n); [|exact H].
           intros Hn. simpl. rewrite E429.
           apply andb_true_intro. split; apply Z.leb_le; lia.
        -- discriminate.
      * destruct (500 <=? code)%Z eqn:E500; [|discriminate].
        apply (Step (BACKOFF_BASE ^ attempt)%Z); [intros _|exact H].
        simpl. rewrite E429. exact E500.
    + apply (Step (BACKOFF_BASE ^ attempt)%Z); [intros _; reflexivity|exact H].
    + discriminate.
Qed.

(** [_get] never makes data up: what it returns is the body of the
    response to one of its at most 3 requests, all responses before it
    were retryable, and no request follows it. *)
Theorem get_returns_a_response :
  forall (url : string) (st : State) (d : Data),
    fst (_get urlopen url st) = Ok d ->
    exists k,
      k < MAX_RETRIES
      /\ urlopen (requests st + k) url = Resp_ok d
      /\ requests (snd (_get urlopen url st)) = requests st + k + 1
      /\ (forall j, j < k -> retryable (urlopen (requests st + j) url) = true).
Proof.
  intros url st d H. unfold _get in *.
  destruct (_get_from urlopen url 1 MAX_RETRIES st) as [r st'] eqn:E.
  simpl in H. subst r. simpl. eapply _get_from_ok. exact E.
Qed.



End MoreClientFacts.

Lemma get_returns_a_response_witness :
  exists k,
    k < MAX_RETRIES
    /\ two_then_record (0 + k) "u" = Resp_ok (Data_dict (Some
         {| work := empty_msg;
            items := Some [ candidate "10.1000/a" "Deep learning in A";
                            candidate "10.1000/b" "Deep learning in B" ] |}))
    /\ requests (snd (_get two_then_record "u" (start []))) = 0 + k + 1
    /\ (forall j, j < k -> retryable (two_then_record (0 + j) "u") = true).
Proof.
  apply (get_returns_a_response two_then_record "u" (start [])).
  vm_compute. reflexivity.
Defined.


Section TerminalFacts.

Variable urlopen : nat -> string -> Response.
Variable quote : string -> string.
Variable urlencode : SearchParams -> string.

Lemma sleep_stdin : forall n st, stdin (snd (sleep n st)) = stdin st.
Proof.
  intros n st. unfold sleep.
  destruct (n <? 0)%Z; [reflexivity|].
  destruct (9223372036 <? n)%Z; reflexivity.
Qed.

Lemma _get_from_stdin : forall url left attempt st,
  stdin (snd (_get_from urlopen url attempt left st)) = stdin st.
Proof.
  intros url left. induction left as [|left IH]; intros attempt st.
  - reflexivity.
  - cbn [_get_from]. unfold bind at 1, request at 1.
    assert (Hs : forall n,
      stdin (snd (bind (sleep n)
                       (fun _ => _get_from urlopen url (attempt + 1) left)
                       {| requests := S (requests st); slept := slept st;
                          stdin := stdin st |})) = stdin st).
    { intros n. unfold bind.
      pose proof (sleep_stdin n {| requests := S (requests st);
                                   slept := slept st; stdin := stdin st |}) as Hq.
      destruct (sleep n _) as [[u|e] st1]; simpl in Hq |- *.
      - rewrite IH. exact Hq.
      - exact Hq. }
    destruct (urlopen (requests st) url) as [d|code ra| |].
    + reflexivity.
    + destruct (code =? 429)%Z.
      * destruct ra as [|n|]; [apply Hs|apply Hs|reflexivity].
      * destruct (500 <=? code)%Z; [apply Hs|reflexivity].
    + apply Hs.
    + reflexivity.
Qed.

Lemma fetch_by_doi_stdin : forall doi st,
  stdin (snd (fetch_by_doi urlopen quote doi st)) = stdin st.
Proof.
  intros doi st. unfold fetch_by_doi, try_except, bind, _get.
  pose proof (_get_from_stdin
    ("https://api.crossref.org/works/" ++
     quote (lstrip_chars "http://dx.doi.org/"
              (lstrip_chars "https://doi.org/" (strip doi))))
    MAX_RETRIES 1 st) as H.
  destruct (_get_from urlopen _ 1 MAX_RETRIES st) as [[data|e] st1]; simpl in H.
  - destruct data; exact H.
  - exact H.
Qed.

Lemma search_crossref_stdin : forall params rows st,
  stdin (snd (search_crossref urlopen urlencode params rows st)) = stdin st.
Proof.
  intros params rows st. unfold search_crossref, try_except, bind, _get.
  pose proof (_get_from_stdin (search_url urlencode params rows)
                MAX_RETRIES 1 st) as H.
  destruct (_get_from urlopen _ 1 MAX_RETRIES st) as [[data|e] st1]; simpl in H.
  - destruct data; exact H.
  - exact H.
Qed.

(** [resolve_input] reads the terminal only when the search gave two
    candidates or more: for a DOI descriptor, and for a search with no
    candidate or one, the lines waiting on the terminal are left as they
    were. *)
Theorem resolve_input_reads_terminal_only_to_pick :
  forall (info : QueryDescriptor) (st : State),
    type info = Kind.doi
    \/ (exists l, fst (search_crossref urlopen urlencode (build_query info) 3 st) = Ok l
                  /\ List.length l <= 1) ->
    stdin (snd (resolve_input urlopen quote urlencode info st)) = stdin st.
Proof.
  intros info st H. unfold resolve_input.
  assert (Hsearch :
    (exists l, fst (search_crossref urlopen urlencode (build_query info) 3 st) = Ok l
               /\ List.length l <= 1) ->
    forall k : Choice -> M (option Msg * string),
    stdin (snd (bind (search_crossref urlopen urlencode (build_query info) 3)
      (fun candidates =>
         match candidates with
         | [] => ret (None, "")
         | [c] => ret (Some c, get (m_DOI c) "")
         | _ => bind (prompt_choice candidates) k
         end) st)) = stdin st).
  { intros [l [Hl Hlen]] k. unfold bind at 1.
    pose proof (search_crossref_stdin (build_query info) 3 st) as Hs.
    destruct (search_crossref urlopen urlencode (build_query info) 3 st)
      as [[l'|e] st1]; simpl in Hl, Hs; [|discriminate].
    inversion Hl; subst l'.
    destruct l as [|c [|c' l]]; simpl in Hlen; [exact Hs|exact Hs|lia]. }
  destruct (type info) eqn:Ek.
  - destruct (doi info) as [d|]; [apply fetch_by_doi_stdin|reflexivity].
  - destruct H as [H|H]; [discriminate|]. apply Hsearch. exact H.
  - destruct H as [H|H]; [discriminate|]. apply Hsearch. exact H.
  - destruct H as [H|H]; [discriminate|]. apply Hsearch. exact H.
  - destruct H as [H|H]; [discriminate|]. apply Hsearch. exact H.
  - destruct H as [H|H]; [discriminate|]. apply Hsearch. exact H.
Qed.

(** The prompt loop ends with one of the candidates or with a skip, after
    reading a prefix of the lines of the terminal. *)
Theorem choose_picks_a_candidate :
  forall (cands : list Msg) (lines : list string) (c : Msg) (more : list string),
    choose cands lines = (Ok (Pick c), more) ->
    In c cands /\ exists used, lines = (used ++ more)%list /\ used <> [].
Proof.
  intros cands lines. induction lines as [|l lines IH]; intros c more H.
  - simpl in H. discriminate.
  - cbn [choose] in H.
    assert (Hrec : choose cands lines = (Ok (Pick c), more) ->
              In c cands /\ exists used, l :: lines = (used ++ more)%list /\ used <> []).
    { intros H'. destruct (IH _ _ H') as [Hin [used [-> _]]].
      split; [exact Hin|]. exists (l :: used). split; [reflexivity|discriminate]. }
    destruct (String.eqb (lower (strip l)) "s"); [discriminate|].
    destruct (isdigit (lower (strip l))); [|apply Hrec; exact H].
    destruct (int_of_digits (lower (strip l))) as [n|]; [|discriminate].
    destruct ((1 <=? n) && (n <=? Z.of_nat (List.length cands)))%Z eqn:E;
      [|apply Hrec; exact H].
    inversion H; subst. apply andb_prop in E. destruct E as [E1 E2].
    apply Z.leb_le in E1. apply Z.leb_le in E2. split.
    + apply nth_In. lia.
    + exists [l]. split; [reflexivity|discriminate].
Qed.

(** A skip fetches nothing: when the search gave two candidates or more
    and the user answers "s", [resolve_input] returns [(None, "")] and the
    only requests sent are those of the search. *)
Theorem skip_fetches_nothing :
  forall (info : QueryDescriptor) (st st1 : State) (more : list Msg)
         (c1 c2 : Msg) (rest : list string),
    type info <> Kind.doi ->
    search_crossref urlopen urlencode (build_query info) 3 st
    = (Ok (c1 :: c2 :: more), st1) ->
    choose (c1 :: c2 :: more) (stdin st1) = (Ok Skip, rest) ->
    resolve_input urlopen quote urlencode info st
    = (Ok (None, ""),
       {| requests := requests st1; slept := slept st1; stdin := rest |}).
Proof.
  intros info st st1 more c1 c2 rest Hk Hs Hc. unfold resolve_input.
  assert (E : bind (search_crossref urlopen urlencode (build_query info) 3)
    (fun candidates =>
       match candidates with
       | [] => ret (None, "")
       | [c] => ret (Some c, get (m_DOI c) "")
       | _ =>
           bind (prompt_choice candidates)
             (fun choice =>
                match choice with
                | Skip => ret (None, "")
                | Pick chosen =>
                    bind (fetch_by_doi urlopen quote (get (m_DOI chosen) ""))
                      (fun fetched =>
                         let '(full, rd) := fetched in
                         ret (match full with
                              | Some f => if msg_truthy f then Some f else Some chosen
                              | None => Some chosen
                              end,
                              if truthy rd then rd else get (m_DOI chosen) ""))
                end)
       end) st
    = (Ok (None, ""),
       {| requests := requests st1; slept := slept st1; stdin := rest |})).
  { unfold bind at 1. rewrite Hs. unfold bind, prompt_choice. rewrite Hc.
    reflexivity. }
  destruct (type info); try contradiction; exact E.
Qed.

End TerminalFacts.

Lemma resolve_input_reads_terminal_only_to_pick_witness :
  stdin (snd (resolve_input always_down plain_quote plain_urlencode
                deep_learning_query (start ["1"; "s"])))
  = ["1"; "s"].
Proof.
  apply (resolve_input_reads_terminal_only_to_pick always_down plain_quote
           plain_urlencode deep_learning_query (start ["1"; "s"])).
  right. exists []. split; [vm_compute; reflexivity|simpl; lia].
Defined.

Lemma choose_picks_a_candidate_witness :
  In lecun_record [empty_msg; lecun_record]
  /\ exists used, ["x"; "7"; " 2 "; "s"] = (used ++ ["s"])%list /\ used <> [].
Proof.
  apply (choose_picks_a_candidate [empty_msg; lecun_record]
           ["x"; "7"; " 2 "; "s"]).
  vm_compute. reflexivity.
Defined.

Lemma skip_fetches_nothing_witness :
  resolve_input two_then_record plain_quote plain_urlencode
    deep_learning_query (start ["q"; "S"; "1"])
  = (Ok (None, ""), {| requests := 1; slept := []; stdin := ["1"] |}).
Proof.
  apply (skip_fetches_nothing two_then_record plain_quote plain_urlencode
           deep_learning_query (start ["q"; "S"; "1"])
           {| requests := 1; slept := []; stdin := ["q"; "S"; "1"] |}
           [] (candidate "10.1000/a" "Deep learning in A")
           (candidate "10.1000/b" "Deep learning in B") ["1"]).
  - discriminate.
  - vm_compute. reflexivity.
  - vm_compute. reflexivity.
Defined.

(* ===================================================================== *)
(** ** More about the formatters *)
(* ===================================================================== *)

Lemma str_int_head : forall n,
  exists c r, str_int n = String c r /\ (is_digit c = true \/ c = "-"%char).
Proof.
  intros n. unfold str_int, NilZero.string_of_int.
  destruct (Z.to_int n) as [d|d].
  - destruct d; simpl; do 2 eexists; (split; [reflexivity|left; reflexivity]).
  - do 2 eexists. split; [reflexivity|right; reflexivity].
Qed.

Lemma not_an_error_entry : forall c r,
  is_digit c = true \/ c = "-"%char ->
  is_error_entry (String c r) = false
  /\ is_error_entry (String "["%char (String c r)) = false.
Proof.
  intros c r H. unfold is_error_entry, ERROR_PREFIXES, startswith.
  cbn [existsb prefix].
  split;
    repeat match goal with
           | |- context [ascii_dec ?a ?b] =>
               destruct (ascii_dec a b);
               [subst; try (destruct H as [H|H]; vm_compute in H; discriminate)|]
           end; reflexivity.
Qed.

(** A formatted citation is never taken for an error placeholder: for each
    of the ten styles of [FORMATS], the string starts with the ordinal (for
    IEEE, with "[" and the ordinal), so it is not empty and starts with none
    of [ERROR_PREFIXES], by which the app tells the entries to list from
    those to report. *)
Theorem formatted_entry_is_not_an_error :
  forall (key label : string) (f : Msg -> string -> Z -> string)
         (msg : Msg) (raw_doi : string) (idx : Z),
    In (key, (label, f)) FORMATS ->
    truthy (f msg raw_doi idx) = true
    /\ is_error_entry (f msg raw_doi idx) = false.
Proof.
  intros key label f msg raw_doi idx H.
  destruct (str_int_head idx) as (c & r & E & Hc).
  destruct (not_an_error_entry c r Hc) as [H1 _].
  unfold FORMATS in H. simpl in H.
  repeat (destruct H as [H|H];
          [inversion H; subst; clear H|]); try contradiction;
    match goal with
    | |- context [fmt_ieee] =>
        unfold fmt_ieee; rewrite E; cbn [append];
        split; [reflexivity|];
        apply (proj2 (not_an_error_entry c
                        (r ++ "] " ++ _) Hc))
    | _ =>
        unfold fmt_plain, fmt_apa, fmt_mla, fmt_chicago, fmt_vancouver,
               fmt_harvard, fmt_ama, fmt_acs, fmt_nature;
        rewrite E; cbn [append];
        split; [reflexivity|];
        apply (proj1 (not_an_error_entry c (r ++ _) Hc))
    end.
Qed.

Lemma formatted_entry_is_not_an_error_witness :
  truthy (fmt_ieee lecun_record "10.1038/nature14539" 1) = true
  /\ is_error_entry (fmt_ieee lecun_record "10.1038/nature14539" 1) = false.
Proof.
  apply (formatted_entry_is_not_an_error "7" "IEEE" fmt_ieee).
  unfold FORMATS. simpl. tauto.
Defined.

(** *** Tokens and initials *)

Lemma rev_string_all_chars : forall p s acc,
  all_chars p (rev_string acc s) = all_chars p s && all_chars p acc.
Proof.
  induction s as [|c s IH]; intros acc; simpl; [reflexivity|].
  rewrite IH. simpl. rewrite andb_assoc, (andb_comm (all_chars p s) (p c)).
  reflexivity.
Qed.

Lemma rev_string_not_empty : forall s acc,
  acc <> "" -> rev_string acc s <> "".
Proof.
  induction s as [|c s IH]; intros acc H; simpl; [exact H|].
  apply IH. discriminate.
Qed.

Lemma split_ws_from_tokens : forall s cur,
  all_chars non_space cur = true ->
  Forall (fun w => w <> "" /\ all_chars non_space w = true) (split_ws_from cur s).
Proof.
  induction s as [|c s IH]; intros cur Hcur.
  - simpl. destruct cur as [|x cur]; constructor; [|constructor].
    split.
    + change (rev_string "" (String x cur)) with (rev_string (String x "") cur).
      apply rev_string_not_empty. discriminate.
    + rewrite rev_string_all_chars. rewrite Hcur. reflexivity.
  - cbn [split_ws_from]. destruct (is_space c) eqn:E.
    + destruct cur as [|x cur]; [apply IH; reflexivity|].
      constructor; [|apply IH; reflexivity].
      split.
      * change (rev_string "" (String x cur)) with (rev_string (String x "") cur).
        apply rev_string_not_empty. discriminate.
      * rewrite rev_string_all_chars. rewrite Hcur. reflexivity.
    + apply IH. simpl. unfold non_space at 1. rewrite E. exact Hcur.
Qed.

Lemma concat_empty_length : forall l : list string,
  String.length (String.concat "" l) = list_sum (map String.length l).
Proof.
  induction l as [|x l IH]; [reflexivity|].
  destruct l as [|y l].
  - simpl. lia.
  - change (String.concat "" (x :: y :: l))
      with (x ++ "" ++ String.concat "" (y :: l)).
    rewrite length_append.
    change ("" ++ String.concat "" (y :: l)) with (String.concat "" (y :: l)).
    rewrite IH. reflexivity.
Qed.

Lemma join_empty_length : forall (f : string -> string) (n : nat) (l : list string),
  Forall (fun w => String.length (f w) = n) l ->
  String.length (join "" (map f l)) = n * List.length l.
Proof.
  intros f n l H. unfold join. rewrite concat_empty_length.
  induction H as [|w l Hw Hl IH]; simpl; [lia|].
  rewrite IH, Hw. lia.
Qed.

(** The tokens of [s.split()] are not empty and hold no whitespace, so the
    [p[0]] of the formatters and of the highlight code always exists; and
    the initials of a given name are one letter and one dot for each of its
    tokens. *)
Theorem one_initial_per_token :
  forall given : string,
    Forall (fun w => w <> "" /\ all_chars non_space w = true) (split_ws given)
    /\ String.length (initials_of given) = 2 * List.length (split_ws given).
Proof.
  intros given.
  assert (Ht : Forall (fun w => w <> "" /\ all_chars non_space w = true)
                 (split_ws given))
    by (apply split_ws_from_tokens; reflexivity).
  split; [exact Ht|].
  unfold initials_of. destruct given as [|c given]; [reflexivity|].
  cbn [truthy]. apply join_empty_length.
  eapply Forall_impl; [|exact Ht].
  intros w [Hw _]. destruct w; [contradiction|reflexivity].
Qed.

(** *** Where the other styles cut the author list *)

(** Nature lists up to 5 authors and cuts a longer list to the first 5 and
    "et al."; Chicago and Harvard join up to 3 authors with "and" and
    reduce a longer list to the first author and "et al."; APA joins up to
    20 authors with "&" before the last and, from 21 on, gives the first
    19, "..." and the last. *)
Theorem other_styles_cut_the_author_list :
  forall (msg : Msg) (raw_doi : string) (idx : Z),
    let n := List.length (get_authors msg) in
    let last_first := get_full_names_last_first (get_authors msg) in
    let first_last := get_full_names_first_last (get_authors msg) in
    let nature authors :=
      str_int idx ++ ". " ++ authors ++ ". " ++ get_title msg ++ ". "
      ++ add_if (get_pages msg) (", " ++ get_pages msg)
           (add_if (get_volume msg) (" **" ++ get_volume msg ++ "**")
              ("*" ++ get_journal msg ++ "*"))
      ++ " (" ++ get_year msg ++ "). https://doi.org/" ++ raw_doi in
    let chicago authors :=
      str_int idx ++ ". " ++ authors ++ ". " ++ get_year msg ++ ". "
      ++ quote_char ++ get_title msg ++ "." ++ quote_char ++ " "
      ++ add_if (get_pages msg) (": " ++ get_pages msg)
           (add_if (get_issue msg) (" (" ++ get_issue msg ++ ")")
              (add_if (get_volume msg) (" " ++ get_volume msg) (get_journal msg)))
      ++ ". https://doi.org/" ++ raw_doi ++ "." in
    let harvard authors :=
      str_int idx ++ ". " ++ authors ++ " (" ++ get_year msg ++ ") '"
      ++ get_title msg ++ "', "
      ++ add_if (get_pages msg) (", pp. " ++ get_pages msg)
           (add_if (get_issue msg) ("(" ++ get_issue msg ++ ")")
              (add_if (get_volume msg) (", " ++ get_volume msg)
                 ("*" ++ get_journal msg ++ "*")))
      ++ ". doi: https://doi.org/" ++ raw_doi ++ "." in
    let apa authors :=
      str_int idx ++ ". " ++ authors ++ " (" ++ get_year msg ++ "). "
      ++ get_title msg ++ ". "
      ++ add_if (get_pages msg) (", " ++ get_pages msg)
           (add_if (get_issue msg) ("(" ++ get_issue msg ++ ")")
              (add_if (get_volume msg) (", " ++ get_volume msg) (get_journal msg)))
      ++ ". https://doi.org/" ++ raw_doi in
    (1 <= n <= 5 -> fmt_nature msg raw_doi idx = nature (join ", " first_last))
    /\ (5 < n ->
        fmt_nature msg raw_doi idx
        = nature (join ", " (firstn 5 first_last) ++ " et al."))
    /\ (2 <= n <= 3 ->
        fmt_chicago msg raw_doi idx
        = chicago (join ", " (removelast last_first) ++ ", and " ++ last last_first "")
        /\ fmt_harvard msg raw_doi idx
           = harvard (join ", " (removelast last_first) ++ " and " ++ last last_first ""))
    /\ (3 < n ->
        fmt_chicago msg raw_doi idx = chicago (nth 0 last_first "" ++ ", et al.")
        /\ fmt_harvard msg raw_doi idx = harvard (nth 0 last_first "" ++ " et al."))
    /\ (2 <= n <= 20 ->
        fmt_apa msg raw_doi idx
        = apa (join ", " (removelast last_first) ++ ", & " ++ last last_first ""))
    /\ (20 < n ->
        fmt_apa msg raw_doi idx
        = apa (join ", " (firstn 19 last_first) ++ ", ... " ++ last last_first "")).
Proof.
  intros msg raw_doi idx n last_first first_last nature chicago harvard apa.
  assert (Hlf : List.length last_first = n) by apply length_map.
  assert (Hfl : List.length first_last = n) by apply length_map.
  assert (T : forall a b, a <= b -> (a <=? b)%nat = true)
    by (intros; apply Nat.leb_le; assumption).
  assert (F : forall a b, b < a -> (a <=? b)%nat = false)
    by (intros; apply Nat.leb_gt; assumption).
  assert (N : forall a b, a <> b -> (a =? b)%nat = false)
    by (intros; apply Nat.eqb_neq; assumption).
  repeat split; intros;
    unfold fmt_nature, fmt_chicago, fmt_harvard, fmt_apa, nature, chicago,
           harvard, apa;
    fold last_first first_last; rewrite ?Hlf, ?Hfl;
    rewrite ?(N n 0), ?(N n 1), ?(T n 5), ?(F n 5), ?(T n 3), ?(F n 3),
            ?(T n 20), ?(F n 20) by lia;
    reflexivity.
Qed.

Lemma other_styles_cut_the_author_list_witness :
  fmt_nature (authors_only six_authors) "10.1/x" 3
  = "3. A.Y. Ng, F.F. Li, Q. Le, K. He, K. Xu et al.. Untitled. ** (n.d.). https://doi.org/10.1/x".
Proof.
  apply (proj1 (proj2 (other_styles_cut_the_author_list
                         (authors_only six_authors) "10.1/x" 3))).
  simpl. lia.
Defined.

(* ===================================================================== *)
(** ** Markup *)
(* ===================================================================== *)

Lemma prefix_star_other : forall m c r,
  not_star c = true -> prefix (String "*"%char m) (String c r) = false.
Proof.
  intros m c r H. cbn [prefix].
  destruct (ascii_dec "*"%char c) as [<-|]; [discriminate H|reflexivity].
Qed.

Lemma sub_from_no_star : forall m s,
  all_chars not_star s = true ->
  sub_from (String "*"%char m) 0 0 0 s = s.
Proof.
  intros m. induction s as [|c s IH]; intros H; [reflexivity|].
  cbn [all_chars] in H. apply andb_prop in H. destruct H as [Hc Hs].
  cbn [sub_from]. rewrite (prefix_star_other m c s Hc), (IH Hs). reflexivity.
Qed.

(** Text without a star is left as it is by [_strip_markup]. *)
Theorem strip_markup_keeps_text_without_stars :
  forall text : string,
    all_chars not_star text = true -> _strip_markup text = text.
Proof.
  intros text H. unfold _strip_markup, sub_marker.
  rewrite (sub_from_no_star "*" text H). apply sub_from_no_star. exact H.
Qed.

Lemma strip_markup_keeps_text_without_stars_witness :
  _strip_markup "1. Hinton, G.E. (2015). Deep learning. Nature, 500(7461)."
  = "1. Hinton, G.E. (2015). Deep learning. Nature, 500(7461).".
Proof.
  apply (strip_markup_keeps_text_without_stars
           "1. Hinton, G.E. (2015). Deep learning. Nature, 500(7461).").
  vm_compute. reflexivity.
Defined.

Lemma plain_is_not_star : forall t,
  all_chars plain_char t = true -> all_chars not_star t = true.
Proof.
  induction t as [|c t IH]; intros H; [reflexivity|].
  cbn [all_chars] in *. apply andb_prop in H. destruct H as [Hc Ht].
  unfold plain_char in Hc. apply andb_prop in Hc. destruct Hc as [Hc _].
  unfold not_star at 1. rewrite Hc, (IH Ht). reflexivity.
Qed.

Lemma close_after_plain : forall m t,
  all_chars plain_char t = true ->
  close (String "*"%char m) (t ++ String "*"%char m) = Some (String.length t).
Proof.
  intros m. induction t as [|c t IH]; intros H.
  - cbn [append]. destruct m; cbn [close]; rewrite prefix_refl; reflexivity.
  - cbn [all_chars] in H. apply andb_prop in H. destruct H as [Hc Ht].
    unfold plain_char in Hc. apply andb_prop in Hc. destruct Hc as [Hs Hn].
    cbn [append close]. rewrite (prefix_star_other m c _ Hs).
    apply negb_true_iff in Hn. unfold newline. rewrite Hn.
    rewrite (IH Ht). reflexivity.
Qed.

Lemma sub_from_copy : forall m t k rest,
  sub_from m 0 (String.length t) k (t ++ rest) = t ++ sub_from m 0 0 k rest.
Proof.
  intros m. induction t as [|c t IH]; intros k rest; [reflexivity|].
  cbn [append String.length sub_from]. rewrite IH. reflexivity.
Qed.

Lemma sub_from_star_tail : forall t,
  all_chars not_star t = true ->
  sub_from "**" 0 0 0 (t ++ "*") = t ++ "*".
Proof.
  induction t as [|c t IH]; intros H; [reflexivity|].
  cbn [all_chars] in H. apply andb_prop in H. destruct H as [Hc Ht].
  cbn [append sub_from]. rewrite (prefix_star_other "*" c _ Hc), (IH Ht).
  reflexivity.
Qed.

(** Stripping undoes the formatters' emphasis: for a text [t] without a
    star and without a newline, [_strip_markup] gives [t] back from the
    italic form "*t*" and from the bold form "**t**". *)
Theorem strip_markup_undoes_emphasis :
  forall t : string,
    all_chars plain_char t = true ->
    _strip_markup ("*" ++ t ++ "*") = t
    /\ _strip_markup ("**" ++ t ++ "**") = t.
Proof.
  intros t H. pose proof (plain_is_not_star t H) as Hs.
  unfold _strip_markup, sub_marker. split.
  - assert (B : sub_from "**" 0 0 0 ("*" ++ t ++ "*") = "*" ++ t ++ "*").
    { destruct t as [|c t]; [reflexivity|].
      cbn [all_chars] in Hs. apply andb_prop in Hs. destruct Hs as [Hc Ht].
      change ("*" ++ String c t ++ "*") with (String "*"%char (String c (t ++ "*"))).
      cbn [sub_from prefix].
      destruct (ascii_dec "*"%char "*"%char); [|contradiction].
      destruct (ascii_dec "*"%char c) as [<-|]; [discriminate Hc|].
      rewrite (sub_from_star_tail t Ht). reflexivity. }
    rewrite B.
    change ("*" ++ t ++ "*") with (String "*"%char (t ++ "*")).
    cbn [sub_from prefix String.length drop Nat.sub].
    destruct (ascii_dec "*"%char "*"%char); [|contradiction].
    rewrite prefix_empty.
    rewrite (close_after_plain "" t H).
    rewrite sub_from_copy. cbn [sub_from]. apply append_nil_r.
  - change ("**" ++ t ++ "**") with (String "*"%char (String "*"%char (t ++ "**"))).
    cbn [sub_from prefix String.length drop Nat.sub].
    destruct (ascii_dec "*"%char "*"%char); [|contradiction].
    rewrite prefix_empty.
    rewrite (close_after_plain "*" t H).
    rewrite sub_from_copy. cbn [sub_from]. rewrite append_nil_r.
    apply sub_from_no_star. exact Hs.
Qed.

Lemma strip_markup_undoes_emphasis_witness :
  _strip_markup ("*" ++ "Nature Medicine" ++ "*") = "Nature Medicine"
  /\ _strip_markup ("**" ++ "Nature Medicine" ++ "**") = "Nature Medicine".
Proof.
  apply (strip_markup_undoes_emphasis "Nature Medicine").
  vm_compute. reflexivity.
Defined.

(* ===================================================================== *)
(** ** More about author matching and highlight targets *)
(* ===================================================================== *)

(** A query that is blank matches every author, because every family name
    starts with the empty string. *)
Theorem blank_query_matches_every_author :
  forall (a : Author) (q : string),
    strip q = "" -> _author_matches_query a q = true.
Proof.
  intros a q H. unfold _author_matches_query. rewrite H.
  cbn [lower]. unfold startswith. rewrite prefix_empty.
  rewrite !orb_true_r. reflexivity.
Qed.

Lemma blank_query_matches_every_author_witness :
  _author_matches_query hinton "   " = true.
Proof.
  apply (blank_query_matches_every_author hinton "   "). reflexivity.
Defined.

Lemma is_space_lower_char : forall c, is_space (lower_char c) = is_space c.
Proof.
  intros c. destruct c as [[] [] [] [] [] [] [] []]; vm_compute; reflexivity.
Qed.

Lemma lower_lstrip : forall s,
  lower (lstrip_by is_space s) = lstrip_by is_space (lower s).
Proof.
  induction s as [|c s IH]; [reflexivity|].
  cbn [lstrip_by lower]. rewrite is_space_lower_char.
  destruct (is_space c); [exact IH|reflexivity].
Qed.

Lemma lower_rstrip : forall s,
  lower (rstrip_by is_space s) = rstrip_by is_space (lower s).
Proof.
  induction s as [|c s IH]; [reflexivity|].
  cbn [rstrip_by lower]. rewrite <- IH, is_space_lower_char.
  destruct (rstrip_by is_space s) as [|d r].
  - destruct (is_space c); reflexivity.
  - reflexivity.
Qed.

Lemma lower_strip : forall s, lower (strip s) = strip (lower s).
Proof.
  intros s. unfold strip, strip_by. rewrite lower_rstrip, lower_lstrip.
  reflexivity.
Qed.

(** An author matches its own family name, whatever the letter case of the
    query and the whitespace around it. *)
Theorem family_name_matches_in_any_case :
  forall (a : Author) (f q : string),
    family a = Some f ->
    lower (strip q) = lower (strip f) ->
    _author_matches_query a q = true.
Proof.
  intros a f q Hf Hq. unfold _author_matches_query.
  rewrite Hf. cbn [get]. rewrite Hq, <- lower_strip.
  rewrite String.eqb_refl. reflexivity.
Qed.

Lemma family_name_matches_in_any_case_witness :
  _author_matches_query hinton " HINTON " = true.
Proof.
  apply (family_name_matches_in_any_case hinton "Hinton" " HINTON ");
    reflexivity.
Defined.

(** *** Sorting by length *)

Lemma insert_by_len_in : forall x y l,
  In y (insert_by_len x l) <-> y = x \/ In y l.
Proof.
  intros x y l. induction l as [|z l IH]; simpl.
  - split; intros [H|H]; auto; contradiction.
  - destruct (String.length z <=? String.length x)%nat; simpl.
    + split; intros H; destruct H as [H|H]; auto.
    + rewrite IH. split; intros H; tauto.
Qed.

Lemma sorted_by_len_desc_in : forall y l,
  In y (sorted_by_len_desc l) <-> In y l.
Proof.
  intros y l. unfold sorted_by_len_desc. induction l as [|x l IH]; simpl.
  - tauto.
  - rewrite insert_by_len_in, IH. split; intros [H|H]; auto.
Qed.

Lemma insert_by_len_sorted : forall x l,
  longest_first l -> longest_first (insert_by_len x l).
Proof.
  intros x l. induction l as [|z l IH]; intros H; simpl.
  - split; constructor.
  - destruct H as [Hz Hl].
    destruct (Nat.leb_spec (String.length z) (String.length x)) as [Hle|Hgt]; simpl.
    + split; [|split; assumption].
      constructor; [exact Hle|].
      eapply Forall_impl; [|exact Hz]. intros w Hw. simpl in Hw. lia.
    + split; [|apply IH; exact Hl].
      apply Forall_forall. intros w Hw. apply insert_by_len_in in Hw.
      destruct Hw as [->|Hw]; [lia|].
      rewrite Forall_forall in Hz. apply Hz. exact Hw.
Qed.

Lemma sorted_by_len_desc_sorted : forall l, longest_first (sorted_by_len_desc l).
Proof.
  intros l. unfold sorted_by_len_desc. induction l as [|x l IH]; simpl.
  - exact I.
  - apply insert_by_len_sorted. exact IH.
Qed.

(** *** The variants of a name *)

Lemma dedupe_in : forall variants seen v,
  In v (dedupe seen variants) -> truthy v = true /\ In v variants.
Proof.
  induction variants as [|x variants IH]; intros seen v H; simpl in H;
    [contradiction|].
  destruct (truthy x && negb (mem (lower x) seen)) eqn:E.
  - destruct H as [<-|H].
    + apply andb_prop in E. destruct E as [E _]. split; [exact E|left; reflexivity].
    + destruct (IH _ _ H) as [Ht Hin]. split; [exact Ht|right; exact Hin].
  - destruct (IH _ _ H) as [Ht Hin]. split; [exact Ht|right; exact Hin].
Qed.

Lemma mem_in : forall s l, mem s l = true -> In s l.
Proof.
  intros s l. induction l as [|x l IH]; simpl; intros H; [discriminate|].
  apply orb_prop in H. destruct H as [H|H].
  - apply String.eqb_eq in H. left. symmetry. exact H.
  - right. apply IH. exact H.
Qed.

Lemma truthy_length : forall s, truthy s = true -> 0 < String.length s.
Proof. intros s H. destruct s; [discriminate|simpl; lia]. Qed.

(** The variants of an author's name come longest first and none is empty;
    when the author has a family name, the bare family name is one of
    them. *)
Theorem rendered_name_variants_shape :
  forall a : Author,
    longest_first (_rendered_name_variants a)
    /\ Forall (fun v => v <> "") (_rendered_name_variants a)
    /\ (strip (get (family a) "") <> "" ->
        In (strip (get (family a) "")) (_rendered_name_variants a)).
Proof.
  intros a. unfold _rendered_name_variants.
  set (fam := strip (get (family a) "")).
  set (giv := strip (get (given a) "")).
  destruct (truthy fam) eqn:Tf; cbn [negb].
  2:{ split; [|split].
      - destruct (truthy (get (name a) "")); simpl; repeat split; try constructor.
      - destruct (truthy (get (name a) "")) eqn:Tn;
          [constructor; [intros E; rewrite E in Tn; discriminate Tn|constructor]
          |constructor].
      - intros H. destruct fam; [contradiction|discriminate Tf]. }
  set (parts := if truthy giv then split_ws giv else []).
  set (forms :=
    [ giv ++ " " ++ fam; fam ++ ", " ++ giv; fam ++ " " ++ giv;
      fam ++ ", " ++ join "" (map dotted parts);
      fam ++ ", " ++ join " " (map dotted parts);
      fam ++ ", " ++ match parts with p :: _ => dotted p | [] => "" end;
      fam ++ " " ++ join "" (map dotted parts);
      fam ++ " " ++ match parts with p :: _ => dotted p | [] => "" end;
      join "" (map dotted parts) ++ " " ++ fam;
      join " " (map dotted parts) ++ " " ++ fam;
      match parts with p :: _ => dotted p | [] => "" end ++ " " ++ fam ]).
  set (variants := if truthy giv then dedupe [] forms else []).
  assert (Hv : Forall (fun v => v <> "") variants).
  { unfold variants. destruct (truthy giv); [|constructor].
    apply Forall_forall. intros v Hin. apply dedupe_in in Hin.
    destruct Hin as [Ht _]. intros ->. discriminate Ht. }
  assert (Hlong : forall v, In v variants -> String.length fam < String.length v).
  { unfold variants. destruct (truthy giv) eqn:Tg; [|contradiction].
    intros v Hin. apply dedupe_in in Hin. destruct Hin as [_ Hin].
    apply truthy_length in Tg.
    unfold forms in Hin. simpl in Hin.
    repeat (destruct Hin as [<-|Hin];
            [rewrite !length_append; simpl; lia|]).
    contradiction. }
  assert (Hmem : mem (lower fam) (map lower variants) = false).
  { destruct (mem (lower fam) (map lower variants)) eqn:E; [|reflexivity].
    apply mem_in in E. apply in_map_iff in E. destruct E as [v [Hl Hin]].
    apply Hlong in Hin. apply (f_equal String.length) in Hl.
    rewrite !length_lower in Hl. lia. }
  rewrite Hmem. cbn [negb].
  split; [apply sorted_by_len_desc_sorted|]. split.
  - apply Forall_forall. intros v Hin.
    apply (proj1 (sorted_by_len_desc_in _ _)) in Hin.
    apply in_app_or in Hin. destruct Hin as [Hin|[<-|[]]].
    + rewrite Forall_forall in Hv. apply Hv. exact Hin.
    + intros E. rewrite E in Tf. discriminate Tf.
  - intros _. apply sorted_by_len_desc_in. apply in_or_app. right. left.
    reflexivity.
Qed.

Lemma rendered_name_variants_shape_witness :
  In "Doe" (_rendered_name_variants jon_andrew_doe).
Proof.
  apply (proj2 (proj2 (rendered_name_variants_shape jon_andrew_doe))).
  vm_compute. discriminate.
Defined.

(** *** The highlight targets *)

Lemma fold_left_keeps : forall (A B : Type) (Inv : A -> Prop) (f : A -> B -> A)
  (l : list B) (init : A),
  Inv init ->
  (forall acc x, In x l -> Inv acc -> Inv (f acc x)) ->
  Inv (fold_left f l init).
Proof.
  intros A B Inv f l. induction l as [|x l IH]; intros init H0 Hstep; simpl.
  - exact H0.
  - apply IH.
    + apply Hstep; [left; reflexivity|exact H0].
    + intros acc y Hy. apply Hstep. right. exact Hy.
Qed.

Lemma dict_set_values : forall (P : string -> Prop) key value d,
  P value ->
  Forall (fun kv : string * string => P (snd kv)) d ->
  Forall (fun kv : string * string => P (snd kv)) (dict_set key value d).
Proof.
  intros P key value d Hv. induction d as [|[k v] d IH]; intros H; simpl.
  - constructor; [exact Hv|constructor].
  - inversion H as [|? ? Hk Hd]; subst.
    destruct (String.eqb key k).
    + constructor; [exact Hv|exact Hd].
    + constructor; [exact Hk|apply IH; exact Hd].
Qed.

(** The targets to highlight come longest first, and each of them is a
    variant of the name of an author that one of the queries matches: no
    name is highlighted that nobody asked for, and without a query there
    is no target. *)
Theorem highlight_targets_come_from_matches :
  forall (authors_meta_list : list (list Author)) (query_list : list string),
    longest_first (_build_highlight_targets authors_meta_list query_list)
    /\ (forall t,
          In t (_build_highlight_targets authors_meta_list query_list) ->
          exists authors a q,
            In authors authors_meta_list /\ In a authors /\ In q query_list
            /\ _author_matches_query a q = true
            /\ In t (_rendered_name_variants a))
    /\ (query_list = [] ->
        _build_highlight_targets authors_meta_list query_list = []).
Proof.
  intros authors_meta_list query_list.
  set (P := fun t : string =>
    exists authors a q,
      In authors authors_meta_list /\ In a authors /\ In q query_list
      /\ _author_matches_query a q = true
      /\ In t (_rendered_name_variants a)).
  assert (Hall : forall t,
            In t (_build_highlight_targets authors_meta_list query_list) -> P t).
  { unfold _build_highlight_targets. intros t Hin.
    apply (proj1 (sorted_by_len_desc_in _ _)) in Hin.
    apply in_map_iff in Hin. destruct Hin as [[k v] [<- Hin]].
    revert Hin. generalize (k, v). apply Forall_forall.
    apply (fold_left_keeps _ _
             (fun d => Forall (fun kv : string * string => P (snd kv)) d));
      [constructor|].
    intros acc authors Hauthors Hacc.
    apply (fold_left_keeps _ _
             (fun d => Forall (fun kv : string * string => P (snd kv)) d));
      [exact Hacc|].
    intros acc1 a Ha Hacc1. unfold add_author.
    apply (fold_left_keeps _ _
             (fun d => Forall (fun kv : string * string => P (snd kv)) d));
      [exact Hacc1|].
    intros acc2 q Hq Hacc2.
    destruct (_author_matches_query a q) eqn:Em; [|exact Hacc2].
    unfold add_variants.
    apply (fold_left_keeps _ _
             (fun d => Forall (fun kv : string * string => P (snd kv)) d));
      [exact Hacc2|].
    intros acc3 variant Hvar Hacc3.
    apply dict_set_values; [|exact Hacc3].
    exists authors, a, q. auto. }
  split; [apply sorted_by_len_desc_sorted|]. split; [exact Hall|].
  intros Hq.
  destruct (_build_highlight_targets authors_meta_list query_list) as [|t l] eqn:E;
    [reflexivity|].
  destruct (Hall t (or_introl eq_refl)) as (authors & a & q & _ & _ & Hin & _).
  rewrite Hq in Hin. contradiction.
Qed.

Lemma highlight_targets_come_from_matches_witness :
  _build_highlight_targets [[jon_andrew_doe; hinton]] [] = [].
Proof.
  apply (proj2 (proj2 (highlight_targets_come_from_matches
                         [[jon_andrew_doe; hinton]] []))).
  reflexivity.
Defined.

(* ===================================================================== *)
(** ** Reading the input *)
(* ===================================================================== *)

Lemma mem_false_not_in : forall s l, mem s l = false -> ~ In s l.
Proof.
  intros s l. induction l as [|x l IH]; simpl; intros H; [tauto|].
  apply orb_false_elim in H. destruct H as [Hx Hl].
  apply String.eqb_neq in Hx. intros [E|E]; [congruence|]. exact (IH Hl E).
Qed.

Lemma truthy_not_empty : forall s, truthy s = true -> s <> "".
Proof. intros s H ->. discriminate H. Qed.

Lemma parse_step_keeps : forall st l0,
  (let '(seen, result, dups) := st in
   seen = rev (map _normalise_key result) /\ NoDup seen
   /\ Forall is_entry_line (result ++ dups)
   /\ Forall (fun l => In (_normalise_key l) seen) dups) ->
  (let '(seen, result, dups) := parse_step st l0 in
   seen = rev (map _normalise_key result) /\ NoDup seen
   /\ Forall is_entry_line (result ++ dups)
   /\ Forall (fun l => In (_normalise_key l) seen) dups).
Proof.
  intros [[seen result] dups] l0 (Hseen & Hnd & Hlines & Hdups).
  unfold parse_step.
  destruct (truthy (strip l0)) eqn:T; cbn [negb orb];
    [|repeat split; assumption].
  destruct (startswith "#" (strip l0)) eqn:C; [repeat split; assumption|].
  assert (Hl : is_entry_line (strip l0)).
  { split; [apply strip_idem|]. split; [apply truthy_not_empty; exact T|exact C]. }
  destruct (mem (_normalise_key (strip l0)) seen) eqn:M.
  - split; [exact Hseen|]. split; [exact Hnd|]. split.
    + rewrite app_assoc. apply Forall_app. split; [exact Hlines|].
      constructor; [exact Hl|constructor].
    + apply Forall_app. split; [exact Hdups|].
      constructor; [apply mem_in; exact M|constructor].
  - split; [rewrite map_app; cbn [map]; rewrite rev_unit, Hseen; reflexivity|].
    split; [constructor; [apply mem_false_not_in; exact M|exact Hnd]|].
    split.
    + apply Forall_app in Hlines. destruct Hlines as [Hr Hd].
      apply Forall_app. split; [|exact Hd].
      apply Forall_app. split; [exact Hr|]. constructor; [exact Hl|constructor].
    + eapply Forall_impl; [|exact Hdups]. intros l Hin. right. exact Hin.
Qed.

Lemma parse_step_count : forall st l0,
  (let '(_, result, dups) := parse_step st l0 in
   List.length result + List.length dups)
  = (let '(_, result, dups) := st in List.length result + List.length dups)
    + (if counts_as_entry l0 then 1 else 0).
Proof.
  intros [[seen result] dups] l0. unfold parse_step, counts_as_entry.
  destruct (truthy (strip l0)); cbn [negb orb andb]; [|lia].
  destruct (startswith "#" (strip l0)); cbn [negb]; [lia|].
  destruct (mem (_normalise_key (strip l0)) seen); rewrite length_app; simpl; lia.
Qed.

Lemma parse_fold_count : forall lines st,
  (let '(_, result, dups) := fold_left parse_step lines st in
   List.length result + List.length dups)
  = (let '(_, result, dups) := st in List.length result + List.length dups)
    + List.length (List.filter counts_as_entry lines).
Proof.
  induction lines as [|l0 lines IH]; intros st; simpl.
  - destruct st as [[? ?] ?]. lia.
  - rewrite IH, parse_step_count.
    destruct (counts_as_entry l0); simpl; lia.
Qed.

(** What [_parse_lines] gives for every text: the lines kept and the
    duplicates are trimmed, not empty and not comments; no two kept lines
    have the same key; each duplicate has the key of a kept line; and the
    two lists together hold as many lines as the text has lines that are
    neither blank nor comments. *)
Theorem parse_lines_splits_entries :
  forall raw : string,
    let result := fst (_parse_lines raw) in
    let duplicates := snd (_parse_lines raw) in
    Forall is_entry_line (result ++ duplicates)
    /\ NoDup (map _normalise_key result)
    /\ Forall (fun l => In (_normalise_key l) (map _normalise_key result))
              duplicates
    /\ List.length result + List.length duplicates
       = List.length (List.filter counts_as_entry (splitlines raw)).
Proof.
  intros raw. unfold _parse_lines, parse_list. cbv zeta.
  pose proof (parse_fold_count (splitlines raw) ([], [], [])) as Hcount.
  pose proof (fold_left_keeps _ _
    (fun st : list string * list string * list string =>
       let '(seen, result, dups) := st in
       seen = rev (map _normalise_key result) /\ NoDup seen
       /\ Forall is_entry_line (result ++ dups)
       /\ Forall (fun l => In (_normalise_key l) seen) dups)
    parse_step (splitlines raw) ([], [], [])) as Hinv.
  destruct (fold_left parse_step (splitlines raw) ([], [], []))
    as [[seen result] dups].
  simpl in Hcount. simpl fst. simpl snd.
  destruct Hinv as (Hseen & Hnd & Hlines & Hdups).
  - simpl. repeat split; constructor.
  - intros acc x _ Hacc. apply parse_step_keeps. exact Hacc.
  - split; [exact Hlines|]. split.
    + rewrite <- (rev_involutive (map _normalise_key result)), <- Hseen.
      apply NoDup_rev. exact Hnd.
    + split; [|exact Hcount].
      eapply Forall_impl; [|exact Hdups].
      intros l Hin. rewrite Hseen in Hin. apply in_rev in Hin. exact Hin.
Qed.

(** The lines that [main] works on are trimmed and not empty; and a file
    whose lines are all blank or start with "#" gives no entry. *)
Theorem entry_lines_are_trimmed :
  forall f : list string,
    Forall (fun l => strip l = l /\ l <> "") (entry_lines f)
    /\ (Forall (fun l => strip l = "" \/ startswith "#" l = true) f ->
        entry_lines f = []).
Proof.
  intros f. unfold entry_lines. split.
  - apply Forall_forall. intros l Hin. apply in_map_iff in Hin.
    destruct Hin as [l0 [<- Hin]]. apply filter_In in Hin.
    destruct Hin as [_ Hk]. apply andb_prop in Hk. destruct Hk as [Ht _].
    split; [apply strip_idem|apply truthy_not_empty; exact Ht].
  - intros H. induction H as [|l f Hl Hf IH]; [reflexivity|].
    simpl. destruct Hl as [Hl|Hl]; rewrite Hl; simpl;
      rewrite ?andb_false_r; exact IH.
Qed.

Lemma entry_lines_are_trimmed_witness :
  entry_lines ["# a list of references"; "   "; "#10.1/x"] = [].
Proof.
  apply (proj2 (entry_lines_are_trimmed
                  ["# a list of references"; "   "; "#10.1/x"])).
  constructor; [right; reflexivity|].
  constructor; [left; reflexivity|].
  constructor; [right; reflexivity|constructor].
Defined.

(* ===================================================================== *)
(** ** More about the processing loops *)
(* ===================================================================== *)

Lemma placeholders_append : forall ss e seen,
  placeholders_ok ss ->
  placeholders_ok {| entries := (entries ss ++ [e])%list;
                     ambiguous := ambiguous ss; seen_dois := seen |}.
Proof.
  intros ss e seen H. unfold placeholders_ok in *. simpl.
  eapply Forall_impl; [|exact H]. intros a Ha.
  rewrite nth_error_app1; [exact Ha|].
  apply nth_error_Some. rewrite Ha. discriminate.
Qed.

Lemma placeholders_new : forall ss line idx cands,
  placeholders_ok ss ->
  placeholders_ok
    {| entries := (entries ss ++ [None])%list;
       ambiguous := (ambiguous ss ++
                     [ {| amb_line := line; entry_idx := idx;
                          list_pos := List.length (entries ss);
                          candidates := cands |} ])%list;
       seen_dois := seen_dois ss |}.
Proof.
  intros ss line idx cands H. unfold placeholders_ok in *. simpl.
  apply Forall_app. split.
  - eapply Forall_impl; [|exact H]. intros a Ha.
    rewrite nth_error_app1; [exact Ha|].
    apply nth_error_Some. rewrite Ha. discriminate.
  - constructor; [|constructor]. simpl.
    rewrite nth_error_app2, Nat.sub_diag; [reflexivity|lia].
Qed.

Section MoreLoopFacts.

Variable urlopen : nat -> string -> Response.
Variable quote : string -> string.
Variable urlencode : SearchParams -> string.
Variable formatter : Msg -> string -> Z -> string.
Variable _cache_get : string -> option Msg.
Variable _search_cache_get : Params -> option (list Msg).

Lemma process_loop_keeps : forall lines idx ss st r st',
  process_loop urlopen quote urlencode formatter _cache_get _search_cache_get
    lines idx ss st = (Ok r, st') ->
  placeholders_ok ss ->
  placeholders_ok r
  /\ List.length (entries r) = List.length (entries ss) + List.length lines.
Proof.
  induction lines as [|line more IH]; intros idx ss st r st' H Hinv.
  - inversion H; subst. split; [exact Hinv|simpl; lia].
  - cbn [process_loop] in H.
    assert (Happ : forall idx' e seen st1,
      process_loop urlopen quote urlencode formatter _cache_get
        _search_cache_get more idx'
        {| entries := (entries ss ++ [e])%list; ambiguous := ambiguous ss;
           seen_dois := seen |} st1 = (Ok r, st') ->
      placeholders_ok r
      /\ List.length (entries r) = List.length (entries ss) + List.length (line :: more)).
    { intros idx' e seen st1 H1. apply IH in H1.
      - destruct H1 as [H1 H2]. split; [exact H1|].
        rewrite H2. simpl. rewrite length_app. simpl. lia.
      - apply placeholders_append. exact Hinv. }
    unfold bind at 1, lift at 1 in H.
    destruct (detect_input_type line) as [info|e]; [|discriminate].
    destruct (type info).
    1: { unfold bind at 1, lift at 1 in H.
         destruct (doi info) as [d|]; [|discriminate].
         unfold bind at 1 in H.
         destruct (cached_fetch_by_doi urlopen quote _cache_get d st)
           as [[[msg raw_doi]|e] st1]; [|discriminate].
         destruct msg as [msg|]; [|eapply Happ; exact H].
         destruct (msg_truthy msg); [|eapply Happ; exact H].
         destruct (dict_has (lower (strip raw_doi)) (seen_dois ss));
           eapply Happ; exact H. }
    all: unfold bind at 1 in H;
      destruct (cached_search_crossref urlopen urlencode _search_cache_get
                  (build_query info) 3 st) as [[cands|e] st1]; [|discriminate];
      destruct cands as [|c [|c' cands]];
      [ eapply Happ; exact H
      | match type of H with
        | context [if ?b then _ else _] => destruct b
        end;
        [ eapply Happ; exact H
        | unfold bind at 1 in H;
          destruct (cached_fetch_by_doi urlopen quote _cache_get
                      (get (m_DOI c) "") st1) as [[[full rd]|e] st2];
          [|discriminate];
          eapply Happ; exact H ]
      | apply IH in H;
        [ destruct H as [H1 H2]; split; [exact H1|];
          rewrite H2; simpl; rewrite length_app; simpl; lia
        | apply placeholders_new; exact Hinv ] ].
Qed.

(** [_process_all_auto] stores one entry for each line, and each item of
    its [ambiguous] list points at a placeholder; so every ambiguous item is
    pending when the picker starts, and its [list_pos] is a valid
    position. *)
Theorem process_all_auto_one_entry_per_line :
  forall (lines : list string) (st st' : State) (ss : Session),
    _process_all_auto urlopen quote urlencode formatter _cache_get
      _search_cache_get lines st = (Ok ss, st') ->
    List.length (entries ss) = List.length lines
    /\ placeholders_ok ss
    /\ pending ss = ambiguous ss.
Proof.
  intros lines st st' ss H. unfold _process_all_auto in H.
  apply process_loop_keeps in H; [|constructor].
  destruct H as [Hinv Hlen]. simpl in Hlen.
  split; [exact Hlen|]. split; [exact Hinv|].
  unfold pending. unfold placeholders_ok in Hinv.
  induction Hinv as [|a l Ha Hl IH]; [reflexivity|].
  simpl. rewrite Ha, IH. reflexivity.
Qed.

End MoreLoopFacts.

Lemma process_all_auto_one_entry_per_line_witness :
  exists ss,
    fst (_process_all_auto two_then_record plain_quote plain_urlencode
           fmt_plain no_cache no_cache two_lines (start [])) = Ok ss
    /\ List.length (entries ss) = 2
    /\ pending ss = ambiguous ss.
Proof.
  destruct (_process_all_auto two_then_record plain_quote plain_urlencode
              fmt_plain no_cache no_cache two_lines (start []))
    as [[ss|e] st'] eqn:E.
  - exists ss. split; [reflexivity|].
    destruct (process_all_auto_one_entry_per_line two_then_record plain_quote
                plain_urlencode fmt_plain no_cache no_cache two_lines
                (start []) st' ss E) as (H1 & _ & H3).
    split; [exact H1|exact H3].
  - exfalso. vm_compute in E. discriminate E.
Defined.


Lemma list_set_spec : forall (A : Type) (v : A) (l : list A) (pos : nat) (x : A),
  nth_error l pos = Some x ->
  exists l',
    list_set pos v l = Some l'
    /\ nth_error l' pos = Some v
    /\ List.length l' = List.length l
    /\ (forall p, p <> pos -> nth_error l' p = nth_error l p).
Proof.
  intros A v. induction l as [|y l IH]; intros pos x H.
  - destruct pos; discriminate.
  - destruct pos as [|pos]; simpl in H.
    + exists (v :: l). simpl. repeat split; auto.
      intros p Hp. destruct p; [contradiction|reflexivity].
    + destruct (IH _ _ H) as (l' & Hs & Hn & Hl & Ho).
      exists (y :: l'). simpl. rewrite Hs. repeat split; auto.
      intros p Hp. destruct p; [reflexivity|]. simpl. apply Ho. lia.
Qed.

Lemma list_set_flat_map : forall (A B : Type) (g : A -> list B) (v : A)
  (l l' : list A) (pos : nat) (x : A),
  nth_error l pos = Some x -> list_set pos v l = Some l' -> g x = g v ->
  flat_map g l' = flat_map g l.
Proof.
  intros A B g v. induction l as [|y l IH]; intros l' pos x H Hs Hg.
  - destruct pos; discriminate.
  - destruct pos as [|pos]; simpl in H, Hs.
    + inversion H; inversion Hs; subst. simpl. rewrite Hg. reflexivity.
    + destruct (list_set pos v l) as [r|] eqn:E; [|discriminate].
      inversion Hs; subst. simpl. rewrite (IH _ _ _ H E Hg). reflexivity.
Qed.

Lemma filter_shrinks : forall (A : Type) (f f' : A -> bool) (x : A) (l : list A),
  (forall a, f' a = true -> f a = true) ->
  In x l -> f x = true -> f' x = false ->
  List.length (List.filter f' l) < List.length (List.filter f l).
Proof.
  intros A f f' x l Hsub. 
  assert (Hle : forall l0, List.length (List.filter f' l0)
                           <= List.length (List.filter f l0)).
  { induction l0 as [|a l0 IH]; simpl; [lia|].
    destruct (f' a) eqn:E'.
    - rewrite (Hsub a E'). simpl. lia.
    - destruct (f a); simpl; lia. }
  induction l as [|a l IH]; intros Hin Hx Hx'; [contradiction|].
  simpl. destruct Hin as [->|Hin].
  - rewrite Hx, Hx'. simpl. specialize (Hle l). lia.
  - specialize (IH Hin Hx Hx'). destruct (f' a) eqn:E'.
    + rewrite (Hsub a E'). simpl. lia.
    + destruct (f a); simpl; lia.
Qed.

Lemma prefix_append : forall p x, prefix p (p ++ x) = true.
Proof.
  induction p as [|c p IH]; intros x; simpl; [apply prefix_empty|].
  destruct (ascii_dec c c); [apply IH|contradiction].
Qed.

(** A skip always works on a pending item and changes nothing else: it
    sends no request and reads no input, puts the "[Skipped: ...]" entry at
    the item's place, leaves the numbered reference list as it was, and
    leaves fewer items pending. *)
Theorem skip_resolves_a_pending_item :
  forall (ss : Session) (item : AmbItem) (st : State),
    In item (pending ss) ->
    exists ss',
      on_skip ss item st = (Ok ss', st)
      /\ nth_error (entries ss') (list_pos item)
         = Some (Some ("[Skipped: " ++ amb_line item ++ "]", []))
      /\ List.length (entries ss') = List.length (entries ss)
      /\ ambiguous ss' = ambiguous ss
      /\ seen_dois ss' = seen_dois ss
      /\ real_entries ss' = real_entries ss
      /\ List.length (pending ss') < List.length (pending ss).
Proof.
  intros ss item st Hin.
  pose proof Hin as Hp. unfold pending in Hp. apply filter_In in Hp.
  destruct Hp as [Hamb Hnone].
  destruct (nth_error (entries ss) (list_pos item)) as [[e|]|] eqn:En;
    try discriminate.
  unfold on_skip, set_entry.
  match goal with
  | |- context [list_set ?p ?v ?l] =>
      destruct (list_set_spec _ v l p None En) as (es & Hs & Hn & Hl & Ho)
  end.
  exists {| entries := es; ambiguous := ambiguous ss; seen_dois := seen_dois ss |}.
  rewrite Hs. simpl.
  repeat split; auto.
  - unfold real_entries. simpl.
    eapply list_set_flat_map; [exact En|exact Hs|].
    change ("[Skipped: " ++ amb_line item ++ "]")
      with ("[Skipped" ++ (": " ++ amb_line item ++ "]")).
    unfold is_error_entry, ERROR_PREFIXES, startswith. cbn [existsb].
    rewrite prefix_append. reflexivity.
  - unfold pending. simpl.
    apply filter_shrinks with (x := item).
    + intros a Ha. destruct (Nat.eq_dec (list_pos a) (list_pos item)) as [E|E].
      * rewrite E, Hn in Ha. discriminate.
      * rewrite (Ho _ E) in Ha. exact Ha.
    + exact Hamb.
    + rewrite En. reflexivity.
    + rewrite Hn. reflexivity.
Qed.

Lemma skip_resolves_a_pending_item_witness :
  exists ss',
    on_skip
      {| entries := [None];
         ambiguous := [ {| amb_line := "Deep learning"; entry_idx := 1;
                           list_pos := 0; candidates := [] |} ];
         seen_dois := [] |}
      {| amb_line := "Deep learning"; entry_idx := 1; list_pos := 0;
         candidates := [] |}
      (start []) = (Ok ss', start [])
    /\ pending ss' = [].
Proof.
  destruct (skip_resolves_a_pending_item
              {| entries := [None];
                 ambiguous := [ {| amb_line := "Deep learning"; entry_idx := 1;
                                   list_pos := 0; candidates := [] |} ];
                 seen_dois := [] |}
              {| amb_line := "Deep learning"; entry_idx := 1; list_pos := 0;
                 candidates := [] |}
              (start []))
    as (ss' & Hs & _ & _ & _ & _ & _ & Hlt).
  - simpl. left. reflexivity.
  - exists ss'. split; [exact Hs|].
    simpl in Hlt. destruct (pending ss'); [reflexivity|simpl in Hlt; lia].
Defined.


(* ===================================================================== *)
(** ** Highlighting without an occurrence, and keys of resolver URLs *)
(* ===================================================================== *)






Lemma rstrip_by_append : forall p a b,
  a <> "" -> all_chars (fun c => negb (p c)) a = true ->
  rstrip_by p (a ++ b) = a ++ rstrip_by p b.
Proof.
  intros p. induction a as [|c a IH]; intros b Hne H; [contradiction|].
  cbn [all_chars] in H. apply andb_prop in H. destruct H as [Hc Ha].
  apply negb_true_iff in Hc.
  cbn [append rstrip_by]. destruct a as [|d a].
  - cbn [append]. destruct (rstrip_by p b); [rewrite Hc|]; reflexivity.
  - rewrite (IH b); [|discriminate|exact Ha]. reflexivity.
Qed.

Lemma all_chars_lower_non_space : forall s,
  all_chars non_space (lower s) = all_chars non_space s.
Proof.
  induction s as [|c s IH]; [reflexivity|].
  cbn [lower all_chars]. unfold non_space at 1 3.
  rewrite is_space_lower_char, IH. reflexivity.
Qed.

Lemma drop_resolver_skip : forall p x,
  drop_resolver_from (String.length p) (p ++ x) = drop_resolver_from 0 x.
Proof.
  induction p as [|c p IH]; intros x; [reflexivity|].
  cbn [String.length append drop_resolver_from].
  destruct x; apply IH.
Qed.

Lemma drop_resolver_at : forall c p x rest,
  resolver_prefix (String c (p ++ x)) = x :: rest ->
  drop_resolver_from 0 (String c p ++ x) = drop_resolver_from 0 x.
Proof.
  intros c p x rest H. cbn [append drop_resolver_from]. rewrite H.
  replace (String.length (String c (p ++ x)) - String.length x - 1)
    with (String.length p)
    by (cbn [String.length]; rewrite length_append; lia).
  apply drop_resolver_skip.
Qed.

(** A resolver URL and the bare identifier behind it have the same
    deduplication key: for a trimmed [d] and a resolver prefix [P] in any
    letter case, [_normalise_key (P ++ d) = _normalise_key d]. *)
Theorem normalise_key_ignores_resolver :
  forall (P d : string),
    In (lower P) resolver_prefixes ->
    strip d = d ->
    _normalise_key (P ++ d) = _normalise_key d.
Proof.
  intros P d HP Hd.
  assert (Hns : all_chars non_space P = true /\ P <> "").
  { rewrite <- all_chars_lower_non_space.
    assert (P <> "") by
      (intros ->; unfold resolver_prefixes in HP; simpl in HP;
       repeat (destruct HP as [HP|HP]; [discriminate|]); contradiction).
    split; [|assumption].
    unfold resolver_prefixes in HP. simpl in HP.
    repeat (destruct HP as [<-|HP]; [reflexivity|]). contradiction. }
  destruct Hns as [Hns Hne].
  assert (Hr : rstrip_by is_space d = d).
  { rewrite <- Hd at 1. unfold strip, strip_by. rewrite rstrip_by_idem.
    exact Hd. }
  assert (Hstrip : strip (P ++ d) = P ++ d).
  { unfold strip, strip_by.
    assert (El : lstrip_by is_space (P ++ d) = P ++ d).
    { destruct P as [|c P]; [contradiction|].
      cbn [all_chars] in Hns. apply andb_prop in Hns. destruct Hns as [Hc _].
      unfold non_space in Hc. apply negb_true_iff in Hc.
      cbn [append lstrip_by]. rewrite Hc. reflexivity. }
    rewrite El, rstrip_by_append, Hr; [reflexivity|exact Hne|exact Hns]. }
  unfold _normalise_key. rewrite Hstrip, Hd, lower_append.
  assert (E : drop_resolver_from 0 (lower P ++ lower d)
              = drop_resolver_from 0 (lower d)).
  { generalize (lower d). intros x.
    unfold resolver_prefixes in HP. simpl in HP.
    destruct HP as [<-|[<-|[<-|[<-|[]]]]].
    - apply (drop_resolver_at "h" "ttps://doi.org/" x []).
      destruct x; vm_compute; reflexivity.
    - apply (drop_resolver_at "h" "ttp://doi.org/" x []).
      destruct x; vm_compute; reflexivity.
    - apply (drop_resolver_at "h" "ttps://dx.doi.org/" x []).
      destruct x; vm_compute; reflexivity.
    - apply (drop_resolver_at "h" "ttp://dx.doi.org/" x []).
      destruct x; vm_compute; reflexivity. }
  rewrite E. reflexivity.
Qed.

Lemma normalise_key_ignores_resolver_witness :
  _normalise_key ("HTTPS://dx.doi.org/" ++ "10.1038/Nature-12345")
  = _normalise_key "10.1038/Nature-12345".
Proof.
  apply (normalise_key_ignores_resolver "HTTPS://dx.doi.org/"
           "10.1038/Nature-12345").
  - unfold resolver_prefixes. simpl. tauto.
  - reflexivity.
Defined.
